(** * formtools.preview: the FormPreview controller

    A shallow embedding of [src/formtools/preview.py].  The controller is a
    thin orchestration layer: it reads the declared field names of a form
    class, binds and validates forms, and calls hooks that a subclass may
    override.  Python values are modelled by small inductive types, dicts by
    [gmap], exceptions and the mutable [self.state] by a state-and-error
    monad that also records every call the controller makes to a hook or to
    the framework. *)

From Stdlib Require Import ZArith Ascii String.
From stdpp Require Import gmap strings pretty list fin_maps fin_sets.


(** ** Python values *)

(** Scalars stored in [self.state], in URLconf arguments and in cleaned data. *)
Inductive Atom :=
  | ANone
  | ABool (b : bool)
  | AInt (z : Z)
  | AStr (s : string).

(** A [QueryDict] / [MultiValueDict]: every key holds a list of values. *)
Abbreviation MultiValueDict := (gmap string (list string)).

(** A plain [dict] with string keys. *)
Abbreviation Dict := (gmap string Atom).

(** Values that travel as keyword arguments of the form constructor. *)
Inductive Value :=
  | VAtom (a : Atom)
  | VQueryDict (q : MultiValueDict)
  | VFiles (f : MultiValueDict)
  | VDict (d : Dict).

Abbreviation Kwargs := (gmap string Value).

(** [MultiValueDict.__getitem__] returns the last value of the list, and
    [MultiValueDict.get] falls back to the default when the key is missing
    or its list is empty. *)
Definition QueryDict_get (q : MultiValueDict) (key : string) : option string :=
  match q !! key with
  | Some vals => last vals
  | None => None
  end.

Definition QueryDict_get_default
    (q : MultiValueDict) (key default : string) : string :=
  match QueryDict_get q key with
  | Some v => v
  | None => default
  end.

(** ** Requests *)

Record HttpRequest := {
  method : string;
  POST : MultiValueDict;
  FILES : MultiValueDict;
  META : gmap string string
}.

Definition with_FILES (request : HttpRequest) (files : MultiValueDict)
    : HttpRequest :=
  {| method := method request; POST := POST request;
     FILES := files; META := META request |}.

(** [str.lower] on the ASCII range, which is where HTTP method names live. *)
Definition ascii_lower (c : ascii) : ascii :=
  let n := nat_of_ascii c in
  if (65 <=? n)%nat && (n <=? 90)%nat then ascii_of_nat (n + 32) else c.

Fixpoint lower (s : string) : string :=
  match s with
  | EmptyString => EmptyString
  | String c s' => String (ascii_lower c) (lower s')
  end.

(** ** Forms *)

(** A form instance is determined by the keyword arguments its constructor
    received. *)
Record Form := { form_kwargs : Kwargs }.

Abbreviation ErrorDict := (gmap string (list string)).

(** The form class wrapped by the controller.  The class belongs to the
    application: the controller only reads [base_fields] and asks for
    validation, so cleaning is a parameter of the class. *)
Record FormClass := {
  base_fields : gmap string string;
  full_clean : Form → ErrorDict * Dict
}.

Definition is_given (v : option Value) : bool :=
  match v with
  | None | Some (VAtom ANone) => false
  | Some _ => true
  end.

(** [self.is_bound = data is not None or files is not None] *)
Definition is_bound (f : Form) : bool :=
  is_given (form_kwargs f !! "data") || is_given (form_kwargs f !! "files").

Definition errors (cls : FormClass) (f : Form) : ErrorDict :=
  if is_bound f then (full_clean cls f).1 else ∅.

(** [is_valid()] is [self.is_bound and not self.errors]. *)
Definition is_valid (cls : FormClass) (f : Form) : bool :=
  is_bound f && bool_decide (errors cls f = ∅).

Definition cleaned_data (cls : FormClass) (f : Form) : Dict :=
  (full_clean cls f).2.

(** ** Field-name collision avoidance *)

Fixpoint underscores (k : nat) : string :=
  match k with
  | O => ""
  | S k' => "_" +:+ underscores k'
  end.

(** The [while 1] loop of [unused_name].  [None] means the fuel ran out
    before the loop reached its [break]. *)
Fixpoint unused_name_loop
    (fields : gmap string string) (fuel : nat) (name : string)
    : option string :=
  match fuel with
  | O => None
  | S fuel' =>
      match fields !! name with
      | None => Some name            (* KeyError: break *)
      | Some _ => unused_name_loop fields fuel' (name +:+ "_")
      end
  end.

(** One more iteration than the form has fields always suffices
    ([unused_name_loop_total] below), so the fallback is never taken. *)
Definition unused_name (cls : FormClass) (name : string) : string :=
  default name
    (unused_name_loop (base_fields cls) (S (size (base_fields cls))) name).

(** * Effects: exceptions, [self.state] and the record of calls *)

Inductive Exn :=
  | Http404
  | NotImplementedError (msg : string)
  | TypeError (msg : string)
  | OtherError (name : string).

Inductive Result (A : Type) :=
  | Ok (a : A)
  | Raise (e : Exn).
Arguments Ok {A} a.
Arguments Raise {A} e.

(** Template contexts.  The entry ['state'] holds [self.state] itself, not a
    copy, so it is a reference that is read when the template is rendered. *)
Inductive CtxValue :=
  | CtxForm (f : Form)
  | CtxStr (s : string)
  | CtxAtom (a : Atom)
  | CtxStateRef.

Abbreviation Context := (gmap string CtxValue).

(** Responses.  [render(request, template, context)] is kept symbolic:
    [state] is the content of [self.state] at the time of rendering. *)
Inductive HttpResponse :=
  | Rendered (request : HttpRequest) (template : string)
             (context : Context) (state : Dict)
  | HttpResponseRedirect (url : string)
  | HttpResponseBody (content : string).

(** Every call the controller makes to one of its overridable methods. *)
Inductive Event :=
  | CallParseParams (request : HttpRequest) (args : list Atom) (kwargs : Dict)
  | CallGetAutoId
  | CallGetInitial (request : HttpRequest)
  | CallFormExtraParams (request : HttpRequest)
  | CallGetContext (request : HttpRequest) (f : Form)
  | CallProcessPreview (request : HttpRequest) (f : Form) (context : Context)
  | CallSecurityHash (request : HttpRequest) (f : Form)
  | CallFailedHash (request : HttpRequest)
  | CallDone (request : HttpRequest) (cleaned : Dict).

Section Controller.
(** Whatever else the hooks of the application read and write. *)
Context {U : Type}.

Record World := {
  self_state : Dict;          (* self.state *)
  env : U;
  trace : list Event          (* calls made so far, oldest first *)
}.

(** Controller code: may raise, and threads the world. *)
Definition M (A : Type) : Type := World → Result A * World.

(** Subclass code: sees [self.state] and the environment, not the trace. *)
Definition HookM (A : Type) : Type := Dict → U → Result A * Dict * U.

Definition ret {A} (a : A) : M A := λ w, (Ok a, w).

Definition raise {A} (e : Exn) : M A := λ w, (Raise e, w).

Definition bind {A B} (m : M A) (k : A → M B) : M B :=
  λ w, match m w with
       | (Ok a, w') => k a w'
       | (Raise e, w') => (Raise e, w')
       end.

Definition lift_result {A} (r : Result A) : M A := λ w, (r, w).

Definition log (ev : Event) : M unit :=
  λ w, (Ok tt, {| self_state := self_state w; env := env w;
                  trace := trace w ++ [ev] |}).

Definition run_hook {A} (h : HookM A) : M A :=
  λ w, match h (self_state w) (env w) with
       | (r, st, u) => (r, {| self_state := st; env := u; trace := trace w |})
       end.

(** The controller calls a method of [self]: the call is recorded, then
    the method runs. *)
Definition call_hook {A} (ev : Event) (h : HookM A) : M A :=
  bind (log ev) (λ _, run_hook h).

Definition get_state : M Dict := λ w, (Ok (self_state w), w).

End Controller.

Arguments World : clear implicits.
Arguments M : clear implicits.
Arguments HookM : clear implicits.

Notation "x <- c ;; k" := (bind c (λ x, k))
  (at level 100, c at next level, right associativity).
Notation "c ;;; k" := (bind c (λ _, k))
  (at level 100, right associativity).

(** * The keyed hash *)

(** The primitives behind [form_hmac]: the process-wide secret key, the keyed
    digest and the canonical serialization of cleaned field values. *)
Class HashPrimitives := {
  SECRET_KEY : string;
  salted_hmac : string → string → string;    (* key, message, hex digest *)
  serialize : Dict → string
}.

(** Modelled from the spec: [formtools.utils.form_hmac], imported by
    [preview.py] from a module that is not part of the sources.  The spec
    describes it as an HMAC-style keyed digest over a canonical serialization
    of the form's cleaned field values, using a process-wide secret key. *)
Definition form_hmac `{HashPrimitives} (cls : FormClass) (f : Form) : string :=
  salted_hmac SECRET_KEY (serialize (cleaned_data cls f)).

(** [django.utils.crypto.constant_time_compare]: equality of the two strings
    (its running time is outside this model). *)
Definition constant_time_compare (val1 val2 : string) : bool :=
  bool_decide (val1 = val2).

(** * The controller *)

Definition AUTO_ID : string := "formtools_%s".

(** A call [cls(k1=v1, ..., **extra)]: Python raises [TypeError] when a
    keyword is given twice, otherwise the constructor receives the union. *)
Definition Form_call (explicit : list (string * Value)) (extra : Kwargs)
    : Result Form :=
  if decide (Exists (λ kv, is_Some (extra !! kv.1)) explicit)
  then Raise (TypeError "got multiple values for keyword argument")
  else Ok {| form_kwargs := list_to_map explicit ∪ extra |}.

Section FormPreview.
Context {U : Type}.

(** [FormPreview] or one of its subclasses: its name, the wrapped form class,
    the two template names, and the methods a subclass may or must override.
    [failed_hash = None] stands for the inherited method, which calls
    [self.preview_post]. *)
Record FormPreview := {
  class_name : string;                  (* self.__class__.__name__ *)
  form : FormClass;
  preview_template : string;
  form_template : string;
  get_auto_id : HookM U string;
  get_initial : HttpRequest → HookM U Dict;
  get_context : HttpRequest → Form → HookM U Context;
  parse_params : HttpRequest → list Atom → Dict → HookM U unit;
  process_preview : HttpRequest → Form → Context → HookM U Context;
  security_hash : HttpRequest → Form → HookM U string;
  failed_hash : option (HttpRequest → HookM U HttpResponse);
  form_extra_params : HttpRequest → HookM U Kwargs;
  done : HttpRequest → Dict → HookM U HttpResponse
}.

(** [__init__]: [self.form, self.state = form, {}] *)
Definition __init__ (u : U) : World U :=
  {| self_state := ∅; env := u; trace := [] |}.

Definition pure_hook {A} (a : A) : HookM U A := λ st u, (Ok a, st, u).

Definition raising_hook {A} (e : Exn) : HookM U A := λ st u, (Raise e, st, u).

(** The methods as [FormPreview] itself defines them. *)
Definition base_get_context (cls : FormClass)
    (request : HttpRequest) (f : Form) : HookM U Context :=
  pure_hook
    (<["form" := CtxForm f]>
     (<["stage_field" := CtxStr (unused_name cls "stage")]>
      (<["state" := CtxStateRef]> ∅))).

Definition base_done (name : string) (request : HttpRequest) (cleaned : Dict)
    : HookM U HttpResponse :=
  raising_hook
    (NotImplementedError
       ("You must define a done() method on your " +:+ name +:+ " subclass.")).

Definition base `{HashPrimitives} (cls : FormClass) : FormPreview := {|
  class_name := "FormPreview";
  form := cls;
  preview_template := "formtools/preview.html";
  form_template := "formtools/form.html";
  get_auto_id := pure_hook AUTO_ID;
  get_initial := λ _, pure_hook ∅;
  get_context := base_get_context cls;
  parse_params := λ _ _ _, pure_hook tt;
  process_preview := λ _ _ context, pure_hook context;
  security_hash := λ _ f, pure_hook (form_hmac cls f);
  failed_hash := None;
  form_extra_params := λ _, pure_hook ∅;
  done := base_done "FormPreview"
|}.

Context (self : FormPreview).

Definition render (request : HttpRequest) (template : string)
    (context : Context) : M U HttpResponse :=
  state <- get_state ;;
  ret (Rendered request template context state).

(** The form instance of [preview_get]: unbound. *)
Definition preview_get_form (request : HttpRequest) : M U Form :=
  auto_id <- call_hook CallGetAutoId (get_auto_id self) ;;
  initial <- call_hook (CallGetInitial request) (get_initial self request) ;;
  extra <- call_hook (CallFormExtraParams request)
                     (form_extra_params self request) ;;
  lift_result (Form_call [("auto_id", VAtom (AStr auto_id));
                          ("initial", VDict initial)] extra).

Definition preview_get (request : HttpRequest) : M U HttpResponse :=
  f <- preview_get_form request ;;
  context <- call_hook (CallGetContext request f)
                       (get_context self request f) ;;
  render request (form_template self) context.

(** The form instance of [preview_post]: bound to data and files. *)
Definition preview_post_form (request : HttpRequest) : M U Form :=
  auto_id <- call_hook CallGetAutoId (get_auto_id self) ;;
  extra <- call_hook (CallFormExtraParams request)
                     (form_extra_params self request) ;;
  lift_result (Form_call [("data", VQueryDict (POST request));
                          ("files", VFiles (FILES request));
                          ("auto_id", VAtom (AStr auto_id))] extra).

Definition preview_post (request : HttpRequest) : M U HttpResponse :=
  f <- preview_post_form request ;;
  context <- call_hook (CallGetContext request f)
                       (get_context self request f) ;;
  if is_valid (form self) f then
    context <- call_hook (CallProcessPreview request f context)
                         (process_preview self request f context) ;;
    let context :=
      <["hash_field" := CtxStr (unused_name (form self) "hash")]> context in
    hash_value <- call_hook (CallSecurityHash request f)
                            (security_hash self request f) ;;
    let context := <["hash_value" := CtxStr hash_value]> context in
    render request (preview_template self) context
  else
    render request (form_template self) context.

Definition _check_security_hash (token : string) (request : HttpRequest)
    (f : Form) : M U bool :=
  expected <- call_hook (CallSecurityHash request f)
                        (security_hash self request f) ;;
  ret (constant_time_compare token expected).

(** [self.failed_hash(request)]; the inherited method re-runs
    [preview_post]. *)
Definition call_failed_hash (request : HttpRequest) : M U HttpResponse :=
  match failed_hash self with
  | Some h => call_hook (CallFailedHash request) (h request)
  | None => log (CallFailedHash request) ;;; preview_post request
  end.

(** The form instance of [post_post]: data is passed positionally, no
    [files] argument. *)
Definition post_post_form (request : HttpRequest) : M U Form :=
  auto_id <- call_hook CallGetAutoId (get_auto_id self) ;;
  extra <- call_hook (CallFormExtraParams request)
                     (form_extra_params self request) ;;
  lift_result (Form_call [("data", VQueryDict (POST request));
                          ("auto_id", VAtom (AStr auto_id))] extra).

Definition post_post (request : HttpRequest) : M U HttpResponse :=
  f <- post_post_form request ;;
  if is_valid (form self) f then
    ok <- _check_security_hash
            (QueryDict_get_default (POST request)
                                   (unused_name (form self) "hash") "")
            request f ;;
    if negb ok then
      call_failed_hash request          (* Security hash failed. *)
    else
      call_hook (CallDone request (cleaned_data (form self) f))
                (done self request (cleaned_data (form self) f))
  else
    context <- call_hook (CallGetContext request f)
                         (get_context self request f) ;;
    render request (form_template self) context.

(** ** Dispatch *)

(** [{'1': 'preview', '2': 'post'}.get(value, 'preview')] *)
Definition stages : gmap string string :=
  <["1" := "preview"]> (<["2" := "post"]> ∅).

Definition stage_of (value : option string) : string :=
  default "preview" (value ≫= (stages !!.)).

(** What [getattr(self, name)] finds for the names [__call__] can ask for.
    These start with [preview_] or [post_]; besides the three handlers the
    class has one more such attribute, the string [preview_template]. *)
Inductive Attr :=
  | AttrMethod (handler : HttpRequest → M U HttpResponse)
  | AttrStr (s : string).

Definition getattr (name : string) : option Attr :=
  if decide (name = "preview_get") then Some (AttrMethod preview_get)
  else if decide (name = "preview_post") then Some (AttrMethod preview_post)
  else if decide (name = "post_post") then Some (AttrMethod post_post)
  else if decide (name = "preview_template")
       then Some (AttrStr (preview_template self))
  else None.                           (* AttributeError *)

Definition call_attr (a : Attr) (request : HttpRequest) : M U HttpResponse :=
  match a with
  | AttrMethod handler => handler request
  | AttrStr _ => raise (TypeError "'str' object is not callable")
  end.

Definition __call__ (request : HttpRequest) (args : list Atom)
    (kwargs : Dict) : M U HttpResponse :=
  let stage :=
    stage_of (QueryDict_get (POST request)
                            (unused_name (form self) "stage")) in
  call_hook (CallParseParams request args kwargs)
            (parse_params self request args kwargs) ;;;
  match getattr (stage +:+ "_" +:+ lower (method request)) with
  | None => raise Http404
  | Some attr => call_attr attr request
  end.

End FormPreview.

Arguments FormPreview : clear implicits.

(** * Observing runs *)

(** The calls to [done] among the recorded calls. *)
Definition done_calls (t : list Event) : list (HttpRequest * Dict) :=
  omap (λ ev, match ev with
              | CallDone request cleaned => Some (request, cleaned)
              | _ => None
              end) t.

Definition is_done_call (ev : Event) : bool :=
  match ev with CallDone _ _ => true | _ => false end.

(** A computation that records no call to [done]. *)
Definition no_done {U A} (m : M U A) : Prop :=
  ∀ w, done_calls (trace (m w).2) = done_calls (trace w).

(** Runs only ever add to the record of calls. *)
Definition trace_grows {U A} (m : M U A) : Prop :=
  ∀ w, ∃ later, trace (m w).2 = trace w ++ later.

(** A computation that keeps a property of [self.state]. *)
Definition state_kept {U A} (P : Dict → Prop) (m : M U A) : Prop :=
  ∀ w, P (self_state w) → P (self_state (m w).2).

(** ** Two readings of the spec, stated over the code *)

Section SpecReadings.
Context {U : Type} (self : FormPreview U).

Definition raises_Http404 {A} (m : M U A) (w : World U) : Prop :=
  (m w).1 = Raise Http404.

(** The attribute name the dispatcher looks up. *)
Definition handler_name (request : HttpRequest) : string :=
  stage_of (QueryDict_get (POST request) (unused_name (form self) "stage"))
  +:+ "_" +:+ lower (method request).

Definition handler_exists (request : HttpRequest) : bool :=
  match getattr self (handler_name request) with
  | Some (AttrMethod _) => true
  | _ => false
  end.

(** The spec's words on not-found: raised exactly when [parse_params]
    raises it or no handler exists for the stage and method. *)
Definition Http404_exactly_when_unmatched
    (request : HttpRequest) (args : list Atom) (kwargs : Dict)
    (w : World U) : Prop :=
  raises_Http404 (__call__ self request args kwargs) w ↔
  raises_Http404 (call_hook (CallParseParams request args kwargs)
                            (parse_params self request args kwargs)) w
  ∨ handler_exists request = false.

(** The spec's words on the state dictionary: whatever an earlier request
    did, the next request on the same instance starts from an empty one. *)
Definition state_fresh_per_request
    (request : HttpRequest) (args : list Atom) (kwargs : Dict) (u : U)
    : Prop :=
  self_state (__call__ self request args kwargs (__init__ u)).2 = ∅.

(** A property of [self.state] that every method of the subclass keeps. *)
Definition keeps (P : Dict → Prop) {A} (h : HookM U A) : Prop :=
  ∀ st u r st' u', h st u = (r, st', u') → P st → P st'.

Record hooks_keep (P : Dict → Prop) : Prop := {
  keep_get_auto_id : keeps P (get_auto_id self);
  keep_get_initial : ∀ request, keeps P (get_initial self request);
  keep_get_context : ∀ request f, keeps P (get_context self request f);
  keep_parse_params : ∀ request args kwargs,
    keeps P (parse_params self request args kwargs);
  keep_process_preview : ∀ request f context,
    keeps P (process_preview self request f context);
  keep_security_hash : ∀ request f, keeps P (security_hash self request f);
  keep_failed_hash : ∀ h request,
    failed_hash self = Some h → keeps P (h request);
  keep_form_extra_params : ∀ request,
    keeps P (form_extra_params self request);
  keep_done : ∀ request cleaned, keeps P (done self request cleaned)
}.

End SpecReadings.

(** * A concrete application *)

Module Examples.

Definition atom_repr (a : Atom) : string :=
  match a with
  | ANone => "None"
  | ABool true => "True"
  | ABool false => "False"
  | AInt z => pretty z
  | AStr s => s
  end.

(** A toy instance of the hash primitives, good enough to run the code. *)
Definition toy_hash : HashPrimitives := {|
  SECRET_KEY := "secret";
  salted_hmac := λ key msg, key +:+ "|" +:+ msg;
  serialize := λ d,
    foldr (λ kv acc, kv.1 +:+ "=" +:+ atom_repr kv.2 +:+ ";" +:+ acc) ""
          (map_to_list d)
|}.

(** A form with the fields [name] and [stage]; [name] is required. *)
Definition ContactForm : FormClass := {|
  base_fields := <["name" := "CharField"]> (<["stage" := "CharField"]> ∅);
  full_clean := λ f,
    match form_kwargs f !! "data" with
    | Some (VQueryDict q) =>
        match QueryDict_get q "name" with
        | Some (String c s) => (∅, <["name" := AStr (String c s)]> ∅)
        | _ => (<["name" := ["This field is required."]]> ∅, ∅)
        end
    | _ => (<["name" := ["This field is required."]]> ∅, ∅)
    end
|}.

(** [FormPreview(ContactForm)] without any override. *)
Definition BasePreview : FormPreview unit := base (H:=toy_hash) ContactForm.

(** A subclass that keeps the URLconf arguments in [self.state] and defines
    [done]. *)
Definition ContactPreview : FormPreview unit := {|
  class_name := "ContactPreview";
  form := ContactForm;
  preview_template := preview_template BasePreview;
  form_template := form_template BasePreview;
  get_auto_id := get_auto_id BasePreview;
  get_initial := get_initial BasePreview;
  get_context := get_context BasePreview;
  parse_params := λ _ _ kwargs st u, (Ok tt, kwargs ∪ st, u);
  process_preview := process_preview BasePreview;
  security_hash := security_hash BasePreview;
  failed_hash := None;
  form_extra_params := form_extra_params BasePreview;
  done := λ _ _, pure_hook (HttpResponseRedirect "/thanks/")
|}.

(** A subclass whose [done] finds nothing to act on. *)
Definition GonePreview : FormPreview unit := {|
  class_name := "GonePreview";
  form := ContactForm;
  preview_template := preview_template BasePreview;
  form_template := form_template BasePreview;
  get_auto_id := get_auto_id BasePreview;
  get_initial := get_initial BasePreview;
  get_context := get_context BasePreview;
  parse_params := parse_params BasePreview;
  process_preview := process_preview BasePreview;
  security_hash := security_hash BasePreview;
  failed_hash := None;
  form_extra_params := form_extra_params BasePreview;
  done := λ _ _, raising_hook Http404
|}.

Definition w0 : World unit := __init__ tt.

Definition get_request : HttpRequest :=
  {| method := "GET"; POST := ∅; FILES := ∅; META := ∅ |}.

Definition preview_request : HttpRequest :=
  {| method := "POST";
     POST := <["name" := ["Ada"]]> (<["stage_" := ["1"]]> ∅);
     FILES := ∅; META := ∅ |}.

Definition invalid_request (stage : string) : HttpRequest :=
  {| method := "POST";
     POST := <["name" := [""]]> (<["stage_" := [stage]]> ∅);
     FILES := ∅; META := ∅ |}.

Definition confirm_request (h : string) : HttpRequest :=
  {| method := "POST";
     POST := <["name" := ["Ada"]]>
               (<["stage_" := ["2"]]> (<["hash" := [h]]> ∅));
     FILES := ∅; META := ∅ |}.

Definition good_hash : string := "secret|name=Ada;".

Definition upload : MultiValueDict := <["attachment" := ["%PDF-1.7"]]> ∅.

(** The form [post_post] builds for a request, and the worlds a first
    request passes through on a fresh controller without overrides. *)
Definition confirm_form (request : HttpRequest) : Form :=
  {| form_kwargs := <["data" := VQueryDict (POST request)]>
                      (<["auto_id" := VAtom (AStr AUTO_ID)]> ∅) |}.

Definition preview_form (request : HttpRequest) : Form :=
  {| form_kwargs := <["data" := VQueryDict (POST request)]>
                      (<["files" := VFiles (FILES request)]>
                        (<["auto_id" := VAtom (AStr AUTO_ID)]> ∅)) |}.

Definition after (calls : list Event) : World unit :=
  {| self_state := ∅; env := tt; trace := calls |}.

Definition form_calls (request : HttpRequest) : list Event :=
  [CallGetAutoId; CallFormExtraParams request].

Definition base_context (f : Form) : Context :=
  <["form" := CtxForm f]>
    (<["stage_field" := CtxStr "stage_"]> (<["state" := CtxStateRef]> ∅)).

Definition preview_context (f : Form) : Context :=
  <["hash_value" := CtxStr good_hash]>
    (<["hash_field" := CtxStr "hash"]> (base_context f)).

Definition preview_calls (request : HttpRequest) (f : Form) : list Event :=
  form_calls request
  ++ [CallGetContext request f;
      CallProcessPreview request f (base_context f);
      CallSecurityHash request f].

Definition has_user_id (st : Dict) : Prop := is_Some (st !! "user_id").

Definition user_32 : Dict := <["user_id" := AInt 32]> ∅.

Definition odd_method_request : HttpRequest :=
  {| method := "TEMPLATE"; POST := ∅; FILES := ∅; META := ∅ |}.

(** A subclass whose [form_extra_params] repeats a keyword the controller
    passes itself. *)
Definition ClashPreview : FormPreview unit := {|
  class_name := "ClashPreview";
  form := ContactForm;
  preview_template := preview_template BasePreview;
  form_template := form_template BasePreview;
  get_auto_id := get_auto_id BasePreview;
  get_initial := get_initial BasePreview;
  get_context := get_context BasePreview;
  parse_params := parse_params BasePreview;
  process_preview := process_preview BasePreview;
  security_hash := security_hash BasePreview;
  failed_hash := None;
  form_extra_params := λ _,
    pure_hook (<["auto_id" := VAtom (AStr "id_%s")]> ∅);
  done := done BasePreview
|}.

End Examples.

(** * Further observations on runs *)

(** The method a recorded call went to. *)
Definition event_name (ev : Event) : string :=
  match ev with
  | CallParseParams _ _ _ => "parse_params"
  | CallGetAutoId => "get_auto_id"
  | CallGetInitial _ => "get_initial"
  | CallFormExtraParams _ => "form_extra_params"
  | CallGetContext _ _ => "get_context"
  | CallProcessPreview _ _ _ => "process_preview"
  | CallSecurityHash _ _ => "security_hash"
  | CallFailedHash _ => "failed_hash"
  | CallDone _ _ => "done"
  end.

Definition calls_among (names : list string) (ev : Event) : bool :=
  bool_decide (event_name ev ∈ names).

(** A computation all of whose calls go to the [allowed] methods. *)
Definition calls_only {U A} (allowed : Event → bool) (m : M U A) : Prop :=
  ∀ w, ∃ later, trace (m w).2 = trace w ++ later ∧
                forallb allowed later = true.

(** The methods each handler may call. *)
Definition preview_get_methods : list string :=
  ["get_auto_id"; "get_initial"; "form_extra_params"; "get_context"].

Definition preview_post_methods : list string :=
  ["get_auto_id"; "form_extra_params"; "get_context"; "process_preview";
   "security_hash"].

Definition post_post_methods : list string :=
  "failed_hash" :: "done" :: preview_post_methods.

(** The dispatch of [__call__] written out as a table of stage and method. *)
Definition dispatch_table {U} (self : FormPreview U) (request : HttpRequest)
    : M U HttpResponse :=
  let m := lower (method request) in
  if decide (QueryDict_get (POST request) (unused_name (form self) "stage")
             = Some "2")
  then
    if decide (m = "post") then post_post self request else raise Http404
  else
    if decide (m = "get") then preview_get self request
    else if decide (m = "post") then preview_post self request
    else if decide (m = "template")
         then raise (TypeError "'str' object is not callable")
    else raise Http404.

(** The forms and the context that the methods of [FormPreview] itself
    build for a request, when no subclass overrides them. *)
Definition inherited_post_form (request : HttpRequest) : Form :=
  {| form_kwargs := <["data" := VQueryDict (POST request)]>
                      (<["auto_id" := VAtom (AStr AUTO_ID)]> ∅) |}.

Definition inherited_preview_form (request : HttpRequest) : Form :=
  {| form_kwargs := <["data" := VQueryDict (POST request)]>
                      (<["files" := VFiles (FILES request)]>
                        (<["auto_id" := VAtom (AStr AUTO_ID)]> ∅)) |}.

Definition inherited_context (cls : FormClass) (f : Form) : Context :=
  <["form" := CtxForm f]>
    (<["stage_field" := CtxStr (unused_name cls "stage")]>
       (<["state" := CtxStateRef]> ∅)).

Definition extend {U} (w : World U) (calls : list Event) : World U :=
  {| self_state := self_state w; env := env w; trace := trace w ++ calls |}.

(** The token of the hash field, as [post_post] reads it. *)
Definition hash_token {U} (self : FormPreview U) (request : HttpRequest)
    : string :=
  QueryDict_get_default (POST request) (unused_name (form self) "hash") "".

(** * Properties of [unused_name] *)

Lemma string_app_nil_l (t : string) : "" +:+ t = t.
Proof. reflexivity. Qed.

Lemma string_app_cons c (s t : string) :
  String c s +:+ t = String c (s +:+ t).
Proof. reflexivity. Qed.

Lemma length_string_app (s t : string) :
  String.length (s +:+ t) = String.length s + String.length t.
Proof.
  induction s as [|c s IH]; [done|].
  rewrite string_app_cons. simpl. by rewrite IH.
Qed.

Lemma string_app_assoc (s t u : string) : (s +:+ t) +:+ u = s +:+ (t +:+ u).
Proof.
  induction s as [|c s IH]; [done|].
  by rewrite !string_app_cons, IH.
Qed.

Lemma string_app_nil_r (s : string) : s +:+ "" = s.
Proof.
  induction s as [|c s IH]; [done|]. by rewrite string_app_cons, IH.
Qed.

Lemma length_underscores k : String.length (underscores k) = k.
Proof.
  induction k as [|k IH]; [done|].
  simpl. rewrite length_string_app, IH. done.
Qed.

Lemma append_underscores_S name k :
  (name +:+ "_") +:+ underscores k = name +:+ underscores (S k).
Proof. by rewrite string_app_assoc. Qed.

Global Instance append_underscores_inj name :
  Inj (=) (=) (λ k, name +:+ underscores k).
Proof.
  intros j k Heq. apply (f_equal String.length) in Heq.
  rewrite !length_string_app, !length_underscores in Heq. lia.
Qed.

Section unused_name.
Context (fields : gmap string string).

(** The loop returns the first candidate that is free, provided one shows
    up within the fuel. *)
Lemma unused_name_loop_spec fuel name k :
  k < fuel →
  fields !! (name +:+ underscores k) = None →
  (∀ j, j < k → is_Some (fields !! (name +:+ underscores j))) →
  unused_name_loop fields fuel name = Some (name +:+ underscores k).
Proof.
  revert name k. induction fuel as [|fuel IH]; intros name k Hk Hfree Hused.
  { lia. }
  simpl. destruct k as [|k].
  - simpl in Hfree. rewrite string_app_nil_r in Hfree. rewrite Hfree.
    by rewrite string_app_nil_r.
  - destruct (Hused 0) as [v Hv]; [lia|].
    simpl in Hv. rewrite string_app_nil_r in Hv. rewrite Hv.
    rewrite <- append_underscores_S. apply IH; [lia | | ].
    + by rewrite append_underscores_S.
    + intros j Hj. rewrite append_underscores_S. apply Hused. lia.
Qed.

(** Pigeonhole: the candidates [name], [name_], ... are pairwise distinct,
    so a map with [n] keys cannot claim the first [n + 1] of them. *)
Lemma candidate_free_within name :
  ∃ k, k ≤ size fields ∧ fields !! (name +:+ underscores k) = None.
Proof.
  destruct (decide (Exists (λ k, fields !! (name +:+ underscores k) = None)
                           (seq 0 (S (size fields))))) as [Hex|Hall].
  { apply Exists_exists in Hex as (k & Hk & Hfree). exists k.
    split; [|done]. apply elem_of_seq in Hk. lia. }
  exfalso.
  set (cands := (λ k, name +:+ underscores k) <$> seq 0 (S (size fields))).
  assert (NoDup cands) as Hnd.
  { apply (NoDup_fmap_2 _). apply NoDup_seq. }
  assert (list_to_set cands ⊆ dom fields) as Hsub.
  { intros c Hc. apply elem_of_list_to_set, list_elem_of_fmap in Hc.
    destruct Hc as (k & -> & Hk). apply elem_of_dom.
    destruct (fields !! (name +:+ underscores k)) eqn:E; [by eexists|].
    destruct Hall. apply Exists_exists. by exists k. }
  apply subseteq_size in Hsub.
  rewrite size_list_to_set in Hsub by done.
  unfold cands in Hsub. rewrite length_fmap, length_seq, size_dom in Hsub.
  lia.
Qed.

(** The least such candidate. *)
Lemma least_free_candidate name :
  ∃ k, k ≤ size fields ∧ fields !! (name +:+ underscores k) = None ∧
       ∀ j, j < k → is_Some (fields !! (name +:+ underscores j)).
Proof.
  destruct (candidate_free_within name) as (k0 & Hk0 & Hfree0).
  revert Hk0 Hfree0. generalize (size fields) as n.
  induction k0 as [k0 IH] using lt_wf_ind. intros n Hk0 Hfree0.
  destruct (decide (Exists (λ j, fields !! (name +:+ underscores j) = None)
                           (seq 0 k0))) as [Hex|Hnone].
  - apply Exists_exists in Hex as (j & Hj & Hfree).
    apply elem_of_seq in Hj.
    destruct (IH j ltac:(lia) n ltac:(lia) Hfree) as (k & ? & ? & ?).
    by exists k.
  - exists k0. split_and!; [done..|].
    intros j Hj. destruct (fields !! (name +:+ underscores j)) eqn:E;
      [by eexists|].
    destruct Hnone. apply Exists_exists. exists j. split; [|done].
    apply elem_of_seq. lia.
Qed.

Lemma unused_name_loop_total name :
  ∃ k, unused_name_loop fields (S (size fields)) name
         = Some (name +:+ underscores k) ∧
       fields !! (name +:+ underscores k) = None ∧
       ∀ j, j < k → is_Some (fields !! (name +:+ underscores j)).
Proof.
  destruct (least_free_candidate name) as (k & Hk & Hfree & Hused).
  exists k. split_and!; [|done..].
  apply unused_name_loop_spec; [lia|done..].
Qed.

End unused_name.

(** * Reasoning about runs *)

Lemma done_calls_app t1 t2 :
  done_calls (t1 ++ t2) = done_calls t1 ++ done_calls t2.
Proof. apply omap_app. Qed.

Lemma done_calls_snoc_other t ev :
  is_done_call ev = false → done_calls (t ++ [ev]) = done_calls t.
Proof.
  intros Hev. rewrite done_calls_app. destruct ev; try discriminate;
    simpl; by rewrite app_nil_r.
Qed.

Section Runs.
Context {U : Type}.
Implicit Types (w : World U) (ev : Event).

Lemma call_hook_inv {A} ev (h : HookM U A) w r w' :
  call_hook ev h w = (r, w') →
  ∃ st u, h (self_state w) (env w) = (r, st, u) ∧
          w' = {| self_state := st; env := u; trace := trace w ++ [ev] |}.
Proof.
  unfold call_hook, bind, log, run_hook. simpl.
  destruct (h (self_state w) (env w)) as [[r0 st] u].
  intros [= <- <-]. by exists st, u.
Qed.

Lemma call_hook_intro {A} ev (h : HookM U A) w r st u :
  h (self_state w) (env w) = (r, st, u) →
  call_hook ev h w =
    (r, {| self_state := st; env := u; trace := trace w ++ [ev] |}).
Proof.
  intros Hh. unfold call_hook, bind, log, run_hook. simpl. by rewrite Hh.
Qed.

Lemma bind_Ok {A B} (m : M U A) (k : A → M U B) w a w' :
  m w = (Ok a, w') → bind m k w = k a w'.
Proof. intros Hm. unfold bind. by rewrite Hm. Qed.

Lemma bind_Raise {A B} (m : M U A) (k : A → M U B) w e w' :
  m w = (Raise e, w') → bind m k w = (Raise e, w').
Proof. intros Hm. unfold bind. by rewrite Hm. Qed.

Lemma bind_inv_Ok {A B} (m : M U A) (k : A → M U B) w b w' :
  bind m k w = (Ok b, w') →
  ∃ a w1, m w = (Ok a, w1) ∧ k a w1 = (Ok b, w').
Proof.
  unfold bind. destruct (m w) as [[a|e] w1]; [|discriminate].
  intros Hk. by exists a, w1.
Qed.

Lemma no_done_ret {A} (a : A) : no_done (U:=U) (ret a).
Proof. by intros w. Qed.

Lemma no_done_raise {A} e : no_done (U:=U) (raise (A:=A) e).
Proof. by intros w. Qed.

Lemma no_done_lift_result {A} (r : Result A) :
  no_done (U:=U) (lift_result r).
Proof. by intros w. Qed.

Lemma no_done_get_state : no_done (U:=U) get_state.
Proof. by intros w. Qed.

Lemma no_done_log ev : is_done_call ev = false → no_done (U:=U) (log ev).
Proof. intros Hev w. simpl. by apply done_calls_snoc_other. Qed.

Lemma no_done_bind {A B} (m : M U A) (k : A → M U B) :
  no_done m → (∀ a, no_done (k a)) → no_done (bind m k).
Proof.
  intros Hm Hk w. unfold bind. specialize (Hm w).
  destruct (m w) as [[a|e] w1]; simpl in *; [|done].
  by rewrite Hk.
Qed.

Lemma no_done_call_hook {A} ev (h : HookM U A) :
  is_done_call ev = false → no_done (call_hook ev h).
Proof.
  intros Hev w. destruct (call_hook ev h w) as [r w'] eqn:E.
  apply call_hook_inv in E as (st & u & _ & ->). simpl.
  by apply done_calls_snoc_other.
Qed.

Context (self : FormPreview U).

Lemma no_done_render request template context :
  no_done (U:=U) (render request template context).
Proof.
  apply no_done_bind; [apply no_done_get_state|]. intros. apply no_done_ret.
Qed.

Local Ltac quiet :=
  repeat first
    [ apply no_done_call_hook; reflexivity
    | apply no_done_lift_result
    | apply no_done_render
    | apply no_done_ret
    | apply no_done_log; reflexivity
    | apply no_done_bind; [|intros ?] ].

Lemma no_done_preview_post_form request :
  no_done (preview_post_form self request).
Proof. unfold preview_post_form. quiet. Qed.

Lemma no_done_post_post_form request :
  no_done (post_post_form self request).
Proof. unfold post_post_form. quiet. Qed.

(** [preview_post] never calls [done]. *)
Lemma no_done_preview_post request : no_done (preview_post self request).
Proof.
  unfold preview_post. apply no_done_bind;
    [apply no_done_preview_post_form|intros f].
  apply no_done_bind; [quiet|intros context].
  destruct (is_valid (form self) f); quiet.
Qed.

(** Neither does the fallback, inherited or overridden. *)
Lemma no_done_call_failed_hash request :
  no_done (call_failed_hash self request).
Proof.
  unfold call_failed_hash. destruct (failed_hash self) as [h|]; [quiet|].
  apply no_done_bind; [quiet|intros _]. apply no_done_preview_post.
Qed.

(** What the three form constructions hand to the form class. *)
Lemma post_post_form_inv request w f w1 :
  post_post_form self request w = (Ok f, w1) →
  ∃ auto_id extra st1 u1 st2 u2,
    get_auto_id self (self_state w) (env w) = (Ok auto_id, st1, u1) ∧
    form_extra_params self request st1 u1 = (Ok extra, st2, u2) ∧
    Form_call [("data", VQueryDict (POST request));
               ("auto_id", VAtom (AStr auto_id))] extra = Ok f ∧
    w1 = {| self_state := st2; env := u2;
            trace := trace w ++ [CallGetAutoId; CallFormExtraParams request] |}.
Proof.
  unfold post_post_form. intros H.
  apply bind_inv_Ok in H as (auto_id & wa & Ha & H).
  apply bind_inv_Ok in H as (extra & wb & Hb & H).
  apply call_hook_inv in Ha as (st1 & u1 & Ha & ->).
  apply call_hook_inv in Hb as (st2 & u2 & Hb & ->). simpl in *.
  unfold lift_result in H. injection H as Hf <-.
  exists auto_id, extra, st1, u1, st2, u2. split_and!; try done.
  by rewrite <- app_assoc.
Qed.

Lemma preview_post_form_inv request w f w1 :
  preview_post_form self request w = (Ok f, w1) →
  ∃ auto_id extra st1 u1 st2 u2,
    get_auto_id self (self_state w) (env w) = (Ok auto_id, st1, u1) ∧
    form_extra_params self request st1 u1 = (Ok extra, st2, u2) ∧
    Form_call [("data", VQueryDict (POST request));
               ("files", VFiles (FILES request));
               ("auto_id", VAtom (AStr auto_id))] extra = Ok f ∧
    w1 = {| self_state := st2; env := u2;
            trace := trace w ++ [CallGetAutoId; CallFormExtraParams request] |}.
Proof.
  unfold preview_post_form. intros H.
  apply bind_inv_Ok in H as (auto_id & wa & Ha & H).
  apply bind_inv_Ok in H as (extra & wb & Hb & H).
  apply call_hook_inv in Ha as (st1 & u1 & Ha & ->).
  apply call_hook_inv in Hb as (st2 & u2 & Hb & ->). simpl in *.
  unfold lift_result in H. injection H as Hf <-.
  exists auto_id, extra, st1, u1, st2, u2. split_and!; try done.
  by rewrite <- app_assoc.
Qed.

Lemma Form_call_lookup_first k v rest extra f :
  Form_call ((k, v) :: rest) extra = Ok f → form_kwargs f !! k = Some v.
Proof.
  unfold Form_call. case_decide; [discriminate|]. intros [= <-]. simpl.
  apply lookup_union_Some_l, lookup_insert_eq.
Qed.

Lemma Form_call_bound_data q rest extra f :
  Form_call (("data", VQueryDict q) :: rest) extra = Ok f →
  is_bound f = true.
Proof.
  intros Hf. unfold is_bound.
  by rewrite (Form_call_lookup_first _ _ _ _ _ Hf).
Qed.

Lemma preview_get_form_inv request w f w1 :
  preview_get_form self request w = (Ok f, w1) →
  ∃ auto_id initial extra st1 u1 st2 u2 st3 u3,
    get_auto_id self (self_state w) (env w) = (Ok auto_id, st1, u1) ∧
    get_initial self request st1 u1 = (Ok initial, st2, u2) ∧
    form_extra_params self request st2 u2 = (Ok extra, st3, u3) ∧
    Form_call [("auto_id", VAtom (AStr auto_id));
               ("initial", VDict initial)] extra = Ok f ∧
    w1 = {| self_state := st3; env := u3;
            trace := trace w ++ [CallGetAutoId; CallGetInitial request;
                                 CallFormExtraParams request] |}.
Proof.
  unfold preview_get_form. intros H.
  apply bind_inv_Ok in H as (auto_id & wa & Ha & H).
  apply bind_inv_Ok in H as (initial & wi & Hi & H).
  apply bind_inv_Ok in H as (extra & wb & Hb & H).
  apply call_hook_inv in Ha as (st1 & u1 & Ha & ->).
  apply call_hook_inv in Hi as (st2 & u2 & Hi & ->).
  apply call_hook_inv in Hb as (st3 & u3 & Hb & ->). simpl in *.
  unfold lift_result in H. injection H as Hf <-.
  exists auto_id, initial, extra, st1, u1, st2, u2, st3, u3.
  split_and!; try done. by rewrite <- !app_assoc.
Qed.

(** ** The record of calls only grows *)

Lemma trace_grows_ret {A} (a : A) : trace_grows (U:=U) (ret a).
Proof. intros w. exists []. by rewrite app_nil_r. Qed.

Lemma trace_grows_raise {A} e : trace_grows (U:=U) (raise (A:=A) e).
Proof. intros w. exists []. by rewrite app_nil_r. Qed.

Lemma trace_grows_lift_result {A} (r : Result A) :
  trace_grows (U:=U) (lift_result r).
Proof. intros w. exists []. by rewrite app_nil_r. Qed.

Lemma trace_grows_render request template context :
  trace_grows (U:=U) (render request template context).
Proof. intros w. exists []. by rewrite app_nil_r. Qed.

Lemma trace_grows_log ev : trace_grows (U:=U) (log ev).
Proof. intros w. by exists [ev]. Qed.

Lemma trace_grows_call_hook {A} ev (h : HookM U A) :
  trace_grows (call_hook ev h).
Proof.
  intros w. destruct (call_hook ev h w) as [r w'] eqn:E.
  apply call_hook_inv in E as (st & u & _ & ->). by exists [ev].
Qed.

Lemma trace_grows_bind {A B} (m : M U A) (k : A → M U B) :
  trace_grows m → (∀ a, trace_grows (k a)) → trace_grows (bind m k).
Proof.
  intros Hm Hk w. unfold bind. destruct (Hm w) as [l Hl].
  destruct (m w) as [[a|e] w1]; simpl in *; [|by exists l].
  destruct (Hk a w1) as [l' Hl']. exists (l ++ l').
  by rewrite Hl', Hl, app_assoc.
Qed.

Local Ltac grows :=
  repeat first
    [ apply trace_grows_call_hook
    | apply trace_grows_lift_result
    | apply trace_grows_render
    | apply trace_grows_ret
    | apply trace_grows_raise
    | apply trace_grows_log
    | apply trace_grows_bind; [|intros ?] ].

Lemma trace_grows_preview_get request : trace_grows (preview_get self request).
Proof. unfold preview_get, preview_get_form. grows. Qed.

Lemma trace_grows_preview_post request :
  trace_grows (preview_post self request).
Proof.
  unfold preview_post, preview_post_form.
  apply trace_grows_bind; [grows|intros f].
  apply trace_grows_bind; [grows|intros context].
  destruct (is_valid (form self) f); grows.
Qed.

Lemma trace_grows_post_post request : trace_grows (post_post self request).
Proof.
  unfold post_post, post_post_form, _check_security_hash.
  apply trace_grows_bind; [grows|intros f].
  destruct (is_valid (form self) f); [|grows].
  apply trace_grows_bind; [grows|intros ok].
  destruct (negb ok); [|grows].
  unfold call_failed_hash. destruct (failed_hash self); [grows|].
  apply trace_grows_bind; [grows|intros _]. apply trace_grows_preview_post.
Qed.

Lemma trace_grows_dispatch request name :
  trace_grows (match getattr self name with
               | None => raise Http404
               | Some attr => call_attr attr request
               end).
Proof.
  destruct (getattr self name) as [[handler|s]|] eqn:Hattr; simpl; [|grows..].
  unfold getattr in Hattr.
  repeat case_decide; simplify_eq;
    auto using trace_grows_preview_get, trace_grows_preview_post,
               trace_grows_post_post.
Qed.

(** ** Properties of [self.state] that the methods keep *)

Lemma keeps_pure_hook (P : Dict → Prop) {A} (a : A) :
  keeps (U:=U) P (pure_hook a).
Proof. intros st u r st' u' [= _ <- _] HP. done. Qed.

Lemma keeps_raising_hook (P : Dict → Prop) {A} e :
  keeps (U:=U) P (raising_hook (A:=A) e).
Proof. intros st u r st' u' [= _ <- _] HP. done. Qed.

Lemma state_kept_ret P {A} (a : A) : state_kept (U:=U) P (ret a).
Proof. by intros w. Qed.

Lemma state_kept_raise P {A} e : state_kept (U:=U) P (raise (A:=A) e).
Proof. by intros w. Qed.

Lemma state_kept_lift_result P {A} (r : Result A) :
  state_kept (U:=U) P (lift_result r).
Proof. by intros w. Qed.

Lemma state_kept_log P ev : state_kept (U:=U) P (log ev).
Proof. by intros w. Qed.

Lemma state_kept_render P request template context :
  state_kept (U:=U) P (render request template context).
Proof. by intros w. Qed.

Lemma state_kept_bind P {A B} (m : M U A) (k : A → M U B) :
  state_kept P m → (∀ a, state_kept P (k a)) → state_kept P (bind m k).
Proof.
  intros Hm Hk w HP. unfold bind. specialize (Hm w HP).
  destruct (m w) as [[a|e] w1]; simpl in *; [|done].
  by apply Hk.
Qed.

Lemma state_kept_call_hook P {A} ev (h : HookM U A) :
  keeps P h → state_kept P (call_hook ev h).
Proof.
  intros Hh w HP. destruct (call_hook ev h w) as [r w'] eqn:E.
  apply call_hook_inv in E as (st & u & E & ->). simpl. by eapply Hh.
Qed.

Section kept.
Context (P : Dict → Prop) (Hkeep : hooks_keep self P).

Local Ltac kept :=
  repeat first
    [ apply state_kept_call_hook; apply Hkeep
    | apply state_kept_lift_result
    | apply state_kept_render
    | apply state_kept_ret
    | apply state_kept_raise
    | apply state_kept_log
    | apply state_kept_bind; [|intros ?] ].

Lemma state_kept_preview_get request : state_kept P (preview_get self request).
Proof. unfold preview_get, preview_get_form. kept. Qed.

Lemma state_kept_preview_post request :
  state_kept P (preview_post self request).
Proof.
  unfold preview_post, preview_post_form.
  apply state_kept_bind; [kept|intros f].
  apply state_kept_bind; [kept|intros context].
  destruct (is_valid (form self) f); kept.
Qed.

Lemma state_kept_call_failed_hash request :
  state_kept P (call_failed_hash self request).
Proof.
  unfold call_failed_hash. destruct (failed_hash self) as [h|] eqn:Hh.
  - apply state_kept_call_hook. by eapply (keep_failed_hash _ _ Hkeep).
  - apply state_kept_bind; [kept|intros _]. apply state_kept_preview_post.
Qed.

Lemma state_kept_post_post request : state_kept P (post_post self request).
Proof.
  unfold post_post, post_post_form, _check_security_hash.
  apply state_kept_bind; [kept|intros f].
  destruct (is_valid (form self) f); [|kept].
  apply state_kept_bind; [kept|intros ok].
  destruct (negb ok); [apply state_kept_call_failed_hash|kept].
Qed.

Lemma state_kept_call request args kwargs :
  state_kept P (__call__ self request args kwargs).
Proof.
  unfold __call__. apply state_kept_bind; [kept|intros _].
  destruct (getattr self _) as [[handler|s]|] eqn:Hattr; simpl; [| kept..].
  unfold getattr in Hattr.
  repeat case_decide; simplify_eq;
    auto using state_kept_preview_get, state_kept_preview_post,
               state_kept_post_post.
Qed.

End kept.

End Runs.

(** * The claims *)

(** C5. [unused_name] terminates and returns the requested name followed by
    the least number of underscores for which the result is not a key of the
    form's [base_fields]; so the name it returns differs from every declared
    field name, also when the form declares [stage] or [hash]. *)
Theorem unused_name_minimal_free (cls : FormClass) (name : string) :
  ∃ k,
    unused_name_loop (base_fields cls) (S (size (base_fields cls))) name
      = Some (unused_name cls name) ∧
    unused_name cls name = name +:+ underscores k ∧
    base_fields cls !! unused_name cls name = None ∧
    (∀ j, j < k → is_Some (base_fields cls !! (name +:+ underscores j))) ∧
    (∀ field, is_Some (base_fields cls !! field) →
              unused_name cls name ≠ field).
Proof.
  destruct (unused_name_loop_total (base_fields cls) name)
    as (k & Hloop & Hfree & Hused).
  exists k. unfold unused_name. rewrite Hloop. simpl.
  split_and!; [done..|].
  intros field [v Hv] <-. congruence.
Qed.

Section Claims.
Context {U : Type} (self : FormPreview U).
Implicit Types (w : World U) (request : HttpRequest) (f : Form).

(** C1. On a confirm POST whose re-bound form validates while the token of
    the request's hash field (the empty string when absent) differs from what
    [security_hash] computes over that form, [post_post] returns what
    [self.failed_hash(request)] returns, and the run records no call to
    [done]: not by [post_post], and not by the inherited fallback. *)
Theorem hash_mismatch_routes_to_failed_hash request w f w1 expected w2 :
  post_post_form self request w = (Ok f, w1) →
  is_valid (form self) f = true →
  call_hook (CallSecurityHash request f) (security_hash self request f) w1
    = (Ok expected, w2) →
  QueryDict_get_default (POST request) (unused_name (form self) "hash") ""
    ≠ expected →
  post_post self request w = call_failed_hash self request w2 ∧
  done_calls (trace (post_post self request w).2) = done_calls (trace w).
Proof.
  intros Hform Hvalid Hhash Hne.
  assert (post_post self request w = call_failed_hash self request w2) as Heq.
  { unfold post_post. rewrite (bind_Ok _ _ _ _ _ Hform), Hvalid.
    unfold _check_security_hash.
    erewrite bind_Ok; [|by erewrite bind_Ok; [|exact Hhash]].
    unfold constant_time_compare. by rewrite bool_decide_eq_false_2. }
  split; [done|]. rewrite Heq, no_done_call_failed_hash.
  pose proof (no_done_call_hook (CallSecurityHash request f)
                (security_hash self request f) eq_refl w1) as H1.
  rewrite Hhash in H1. simpl in H1. rewrite H1.
  pose proof (no_done_post_post_form self request w) as H0.
  by rewrite Hform in H0.
Qed.

(** C2. On a confirm POST whose re-bound form validates and whose token
    equals the recomputed hash, [post_post] returns
    [self.done(request, form.cleaned_data)], and that is the one call to
    [done] the run records. *)
Theorem hash_match_calls_done request w f w1 expected w2 :
  post_post_form self request w = (Ok f, w1) →
  is_valid (form self) f = true →
  call_hook (CallSecurityHash request f) (security_hash self request f) w1
    = (Ok expected, w2) →
  QueryDict_get_default (POST request) (unused_name (form self) "hash") ""
    = expected →
  post_post self request w
    = call_hook (CallDone request (cleaned_data (form self) f))
                (done self request (cleaned_data (form self) f)) w2 ∧
  done_calls (trace (post_post self request w).2)
    = done_calls (trace w) ++ [(request, cleaned_data (form self) f)].
Proof.
  intros Hform Hvalid Hhash Heq.
  assert (post_post self request w
          = call_hook (CallDone request (cleaned_data (form self) f))
              (done self request (cleaned_data (form self) f)) w2) as Hrun.
  { unfold post_post. rewrite (bind_Ok _ _ _ _ _ Hform), Hvalid.
    unfold _check_security_hash.
    erewrite bind_Ok; [|by erewrite bind_Ok; [|exact Hhash]].
    unfold constant_time_compare. by rewrite bool_decide_eq_true_2. }
  split; [done|]. rewrite Hrun.
  destruct (call_hook _ _ w2) as [r w3] eqn:Hdone.
  apply call_hook_inv in Hdone as (st & u & _ & ->). simpl.
  rewrite done_calls_app. simpl. f_equal.
  pose proof (no_done_call_hook (CallSecurityHash request f)
                (security_hash self request f) eq_refl w1) as H1.
  rewrite Hhash in H1. simpl in H1. rewrite H1.
  pose proof (no_done_post_post_form self request w) as H0.
  by rewrite Hform in H0.
Qed.

(** C6. A POST at either stage whose bound form fails validation returns
    normally with the form template rendered over the context that
    [get_context] gave for that form, which is bound and carries errors.  The
    only methods called are [get_auto_id], [form_extra_params] and
    [get_context]: no hash is computed, and neither [process_preview] nor
    [done] runs. *)
Theorem invalid_post_rerenders_form
    (handler : HttpRequest → M U HttpResponse) request w f w1 context w2 :
  (handler = preview_post self ∧
     preview_post_form self request w = (Ok f, w1)) ∨
  (handler = post_post self ∧
     post_post_form self request w = (Ok f, w1)) →
  is_valid (form self) f = false →
  call_hook (CallGetContext request f) (get_context self request f) w1
    = (Ok context, w2) →
  handler request w
    = (Ok (Rendered request (form_template self) context (self_state w2)),
       w2) ∧
  trace w2 = trace w ++ [CallGetAutoId; CallFormExtraParams request;
                         CallGetContext request f] ∧
  is_bound f = true ∧
  errors (form self) f ≠ ∅ ∧
  (get_context self = base_get_context (form self) →
   context !! "form" = Some (CtxForm f)).
Proof.
  intros Hstage Hinvalid Hctx.
  assert (is_bound f = true ∧
          trace w1 = trace w ++ [CallGetAutoId; CallFormExtraParams request])
    as [Hbound Htrace].
  { destruct Hstage as [[_ Hf]|[_ Hf]].
    - apply preview_post_form_inv in Hf
        as (a & extra & ? & ? & ? & ? & _ & _ & Hcall & ->).
      split; [|done]. by eapply Form_call_bound_data.
    - apply post_post_form_inv in Hf
        as (a & extra & ? & ? & ? & ? & _ & _ & Hcall & ->).
      split; [|done]. by eapply Form_call_bound_data. }
  split_and!.
  - destruct Hstage as [[-> Hf]|[-> Hf]].
    + unfold preview_post.
      rewrite (bind_Ok _ _ _ _ _ Hf), (bind_Ok _ _ _ _ _ Hctx), Hinvalid.
      reflexivity.
    + unfold post_post.
      rewrite (bind_Ok _ _ _ _ _ Hf), Hinvalid, (bind_Ok _ _ _ _ _ Hctx).
      reflexivity.
  - apply call_hook_inv in Hctx as (st & u & _ & ->). simpl.
    rewrite Htrace. by rewrite <- app_assoc.
  - done.
  - unfold is_valid in Hinvalid. rewrite Hbound in Hinvalid. simpl in Hinvalid.
    by apply bool_decide_eq_false_1 in Hinvalid.
  - intros Hbase. apply call_hook_inv in Hctx as (st & u & Hctx & _).
    rewrite Hbase in Hctx. unfold base_get_context, pure_hook in Hctx.
    injection Hctx as <- _ _. apply lookup_insert_eq.
Qed.

(** C3. With the inherited [security_hash], the [hash_value] that a valid
    preview POST puts into the preview context is [form_hmac] of the
    validated form, and [security_hash] returns that same value for any
    request and any form instance with the same cleaned data: it is the keyed
    digest of the serialized cleaned data under the secret key, a function of
    these alone. *)
Theorem preview_hash_is_recomputed_hash `{HashPrimitives}
    request w f w1 response w' :
  security_hash self = (λ _ f, pure_hook (form_hmac (form self) f)) →
  preview_post_form self request w = (Ok f, w1) →
  is_valid (form self) f = true →
  preview_post self request w = (Ok response, w') →
  ∃ context,
    response
      = Rendered request (preview_template self) context (self_state w') ∧
    context !! "hash_value" = Some (CtxStr (form_hmac (form self) f)) ∧
    context !! "hash_field"
      = Some (CtxStr (unused_name (form self) "hash")) ∧
    (∀ request' f' w0,
       cleaned_data (form self) f' = cleaned_data (form self) f →
       (call_hook (CallSecurityHash request' f')
                  (security_hash self request' f') w0).1
         = Ok (form_hmac (form self) f)) ∧
    form_hmac (form self) f
      = salted_hmac SECRET_KEY (serialize (cleaned_data (form self) f)).
Proof.
  intros Hdefault Hf Hvalid Hrun.
  unfold preview_post in Hrun.
  rewrite (bind_Ok _ _ _ _ _ Hf) in Hrun.
  apply bind_inv_Ok in Hrun as (context0 & wc & _ & Hrun).
  rewrite Hvalid in Hrun.
  apply bind_inv_Ok in Hrun as (context1 & wp & _ & Hrun).
  apply bind_inv_Ok in Hrun as (hash_value & wh & Hhash & Hrun).
  apply call_hook_inv in Hhash as (st & u & Hhash & ->).
  rewrite Hdefault in Hhash. unfold pure_hook in Hhash.
  injection Hhash as <- <- <-.
  unfold render, bind, get_state, ret in Hrun. injection Hrun as <- <-.
  eexists. split_and!.
  - reflexivity.
  - apply lookup_insert_eq.
  - rewrite lookup_insert_ne by done. apply lookup_insert_eq.
  - intros request' f' w0 Hsame. rewrite Hdefault.
    erewrite call_hook_intro by reflexivity. simpl.
    unfold form_hmac. by rewrite Hsame.
  - reflexivity.
Qed.

(** The calls to [done] that a run of [post_post] adds: one, carrying the
    cleaned data of the re-bound form, when that form is valid and the token
    passes the hash check; none otherwise. *)
Lemma post_post_done_calls request w :
  done_calls (trace (post_post self request w).2)
  = done_calls (trace w) ++
    match post_post_form self request w with
    | (Ok f, w1) =>
        if is_valid (form self) f then
          match call_hook (CallSecurityHash request f)
                          (security_hash self request f) w1 with
          | (Ok expected, _) =>
              if constant_time_compare
                   (QueryDict_get_default (POST request)
                      (unused_name (form self) "hash") "") expected
              then [(request, cleaned_data (form self) f)]
              else []
          | (Raise _, _) => []
          end
        else []
    | (Raise _, _) => []
    end.
Proof.
  pose proof (no_done_post_post_form self request w) as H0.
  unfold post_post.
  destruct (post_post_form self request w) as [[f|e] w1] eqn:Hf; simpl in H0.
  2: { erewrite bind_Raise by exact Hf. simpl. by rewrite app_nil_r. }
  rewrite (bind_Ok _ _ _ _ _ Hf).
  destruct (is_valid (form self) f).
  2: { rewrite app_nil_r, <- H0.
       assert (no_done
                 (context <- call_hook (CallGetContext request f)
                               (get_context self request f) ;;
                  render request (form_template self) context)) as Hq.
       { apply no_done_bind; [by apply no_done_call_hook|].
         intros. apply no_done_render. }
       apply Hq. }
  unfold _check_security_hash.
  pose proof (no_done_call_hook (CallSecurityHash request f)
                (security_hash self request f) eq_refl w1) as H1.
  destruct (call_hook (CallSecurityHash request f)
              (security_hash self request f) w1) as [[h|e] wh] eqn:Hh;
    simpl in H1.
  2: { erewrite bind_Raise; [|by erewrite bind_Raise; [|exact Hh]].
       simpl. by rewrite app_nil_r, H1, H0. }
  erewrite bind_Ok; [|by erewrite bind_Ok; [|exact Hh]].
  destruct (constant_time_compare _ h); simpl.
  - destruct (call_hook _ _ wh) as [r wd] eqn:Hd.
    apply call_hook_inv in Hd as (st & u & _ & ->). simpl.
    by rewrite done_calls_app, H1, H0.
  - by rewrite no_done_call_failed_hash, H1, H0, app_nil_r.
Qed.

(** C10. [post_post] instantiates the form with the POST data and no
    [files] argument; [preview_post] instantiates it with the POST data and
    [request.FILES].  In both handlers that instance is the form that goes
    on: [post_post] validates it, has [security_hash] hash it and passes its
    cleaned data to [done] (or hands it to [get_context] when it is
    invalid), while [preview_post] hands the instance bound to the files to
    [get_context] and on.  Hence, when neither [form_extra_params] nor
    [security_hash] looks at the uploads, they change neither the form that
    [post_post] re-validates nor the cleaned data it passes to [done]. *)
Theorem confirm_binds_data_without_files request files w :
  (∀ st u, form_extra_params self (with_FILES request files) st u
           = form_extra_params self request st u) →
  (∀ f st u, security_hash self (with_FILES request files) f st u
             = security_hash self request f st u) →
  (post_post_form self (with_FILES request files) w).1
    = (post_post_form self request w).1 ∧
  (done_calls (trace (post_post self (with_FILES request files) w).2)).*2
    = (done_calls (trace (post_post self request w).2)).*2 ∧
  (∀ f w1, post_post_form self request w = (Ok f, w1) →
     form_kwargs f !! "data" = Some (VQueryDict (POST request)) ∧
     (∃ extra st u st' u',
        form_extra_params self request st u = (Ok extra, st', u') ∧
        form_kwargs f !! "files" = extra !! "files") ∧
     ((∀ st u extra st' u',
         form_extra_params self request st u = (Ok extra, st', u') →
         extra !! "files" = None) →
      form_kwargs f !! "files" = None) ∧
     post_post self request w
       = (if is_valid (form self) f then
            ok <- _check_security_hash self
                    (QueryDict_get_default (POST request)
                       (unused_name (form self) "hash") "")
                    request f ;;
            if negb ok then call_failed_hash self request
            else call_hook (CallDone request (cleaned_data (form self) f))
                   (done self request (cleaned_data (form self) f))
          else
            context <- call_hook (CallGetContext request f)
                                 (get_context self request f) ;;
            render request (form_template self) context) w1 ∧
     (∀ expected w2,
        is_valid (form self) f = true →
        call_hook (CallSecurityHash request f)
                  (security_hash self request f) w1 = (Ok expected, w2) →
        QueryDict_get_default (POST request)
          (unused_name (form self) "hash") "" = expected →
        done_calls (trace (post_post self request w).2)
          = done_calls (trace w)
            ++ [(request, cleaned_data (form self) f)]) ∧
     ∃ calls,
       done_calls (trace (post_post self request w).2)
         = done_calls (trace w) ++ calls ∧
       ∀ call, call ∈ calls →
               call = (request, cleaned_data (form self) f)) ∧
  (∀ f w1, preview_post_form self request w = (Ok f, w1) →
     form_kwargs f !! "data" = Some (VQueryDict (POST request)) ∧
     form_kwargs f !! "files" = Some (VFiles (FILES request)) ∧
     CallGetContext request f ∈ trace (preview_post self request w).2 ∧
     preview_post self request w
       = (context <- call_hook (CallGetContext request f)
                               (get_context self request f) ;;
          if is_valid (form self) f then
            context <- call_hook (CallProcessPreview request f context)
                         (process_preview self request f context) ;;
            hash_value <- call_hook (CallSecurityHash request f)
                            (security_hash self request f) ;;
            render request (preview_template self)
              (<["hash_value" := CtxStr hash_value]>
                 (<["hash_field" :=
                      CtxStr (unused_name (form self) "hash")]> context))
          else render request (form_template self) context) w1).
Proof.
  intros Hextra Hhash. split_and!.
  - unfold post_post_form, bind, call_hook, log, run_hook, bind, lift_result.
    simpl. destruct (get_auto_id self _ _) as [[[a|e] st1] u1]; simpl; [|done].
    rewrite Hextra.
    destruct (form_extra_params self request st1 u1) as [[[x|e] st2] u2];
      simpl; done.
  - rewrite !post_post_done_calls, !fmap_app. f_equal.
    unfold post_post_form, bind, call_hook, log, run_hook, bind, lift_result.
    simpl. destruct (get_auto_id self _ _) as [[[a|e] st1] u1]; simpl; [|done].
    rewrite Hextra.
    destruct (form_extra_params self request st1 u1) as [[[x|e] st2] u2];
      simpl; [|done].
    destruct (Form_call _ x) as [f|e]; simpl; [|done].
    destruct (is_valid (form self) f); [|done].
    rewrite Hhash.
    destruct (security_hash self request f st2 u2) as [[[h|e] st3] u3];
      simpl; [|done].
    by destruct (constant_time_compare _ h).
  - intros f w1 Hf. pose proof Hf as Hform.
    apply post_post_form_inv in Hf
      as (a & extra & st1 & u1 & st2 & u2 & _ & Hx & Hcall & Hw1).
    split_and!.
    + by eapply Form_call_lookup_first.
    + exists extra, st1, u1, st2, u2. split; [done|].
      unfold Form_call in Hcall. case_decide; [discriminate|].
      injection Hcall as <-. simpl.
      rewrite lookup_union_r; [done|].
      rewrite lookup_insert_ne by done. rewrite lookup_insert_ne by done.
      apply lookup_empty.
    + intros Hnone. unfold Form_call in Hcall.
      case_decide; [discriminate|]. injection Hcall as <-. simpl.
      rewrite lookup_union_r; [by eapply Hnone|].
      rewrite lookup_insert_ne by done. rewrite lookup_insert_ne by done.
      apply lookup_empty.
    + unfold post_post. by rewrite (bind_Ok _ _ _ _ _ Hform).
    + intros expected w2 Hvalid Hh Htoken.
      rewrite post_post_done_calls, Hform, Hvalid, Hh.
      unfold constant_time_compare. by rewrite bool_decide_eq_true_2.
    + rewrite post_post_done_calls, Hform. eexists. split; [reflexivity|].
      intros call Hcallin.
      destruct (is_valid (form self) f); [|by apply elem_of_nil in Hcallin].
      destruct (call_hook _ _ w1) as [[h|e] wh];
        [|by apply elem_of_nil in Hcallin].
      destruct (constant_time_compare _ h);
        [|by apply elem_of_nil in Hcallin].
      by apply list_elem_of_singleton in Hcallin.
  - intros f w1 Hf. pose proof Hf as Hform.
    apply preview_post_form_inv in Hf
      as (a & extra & st1 & u1 & st2 & u2 & _ & Hx & Hcall & Hw1).
    assert (preview_post self request w
            = (context <- call_hook (CallGetContext request f)
                                    (get_context self request f) ;;
               if is_valid (form self) f then
                 context <- call_hook (CallProcessPreview request f context)
                              (process_preview self request f context) ;;
                 hash_value <- call_hook (CallSecurityHash request f)
                                 (security_hash self request f) ;;
                 render request (preview_template self)
                   (<["hash_value" := CtxStr hash_value]>
                      (<["hash_field" :=
                           CtxStr (unused_name (form self) "hash")]> context))
               else render request (form_template self) context) w1)
      as Hrun.
    { unfold preview_post. by rewrite (bind_Ok _ _ _ _ _ Hform). }
    split_and!.
    + by eapply Form_call_lookup_first.
    + unfold Form_call in Hcall. case_decide; [discriminate|].
      injection Hcall as <-. simpl.
      apply lookup_union_Some_l. rewrite lookup_insert_ne by done.
      apply lookup_insert_eq.
    + rewrite Hrun. unfold bind at 1.
      destruct (call_hook (CallGetContext request f)
                  (get_context self request f) w1) as [[context|e] wc] eqn:Hc.
      * apply call_hook_inv in Hc as (st & u & _ & ->).
        assert (trace_grows
                  (if is_valid (form self) f then
                     context <- call_hook
                                  (CallProcessPreview request f context)
                                  (process_preview self request f context) ;;
                     hash_value <- call_hook (CallSecurityHash request f)
                                     (security_hash self request f) ;;
                     render request (preview_template self)
                       (<["hash_value" := CtxStr hash_value]>
                          (<["hash_field" :=
                               CtxStr (unused_name (form self) "hash")]>
                             context))
                   else render request (form_template self) context))
          as Hgrow.
        { destruct (is_valid (form self) f);
            repeat first [ apply trace_grows_call_hook
                         | apply trace_grows_render
                         | apply trace_grows_bind; [|intros ?] ]. }
        destruct (Hgrow {| self_state := st; env := u;
                           trace := trace w1 ++ [CallGetContext request f] |})
          as [later Hl].
        rewrite Hl. simpl. apply elem_of_app. left.
        apply elem_of_app. right. apply list_elem_of_here.
      * apply call_hook_inv in Hc as (st & u & _ & ->). simpl.
        apply elem_of_app. right. apply list_elem_of_here.
    + exact Hrun.
Qed.

Lemma stage_of_post value : stage_of value = "post" ↔ value = Some "2".
Proof.
  unfold stage_of, stages. destruct value as [v|]; simpl; [|done].
  destruct (decide (v = "2")) as [->|H2]; [done|].
  destruct (decide (v = "1")) as [->|H1]; [done|].
  rewrite lookup_insert_ne, lookup_insert_ne, lookup_empty by done.
  simpl. split; [done|]. by intros [= ->].
Qed.

Lemma stage_of_preview value :
  value ≠ Some "2" → stage_of value = "preview".
Proof.
  unfold stage_of, stages. destruct value as [v|]; simpl; [|done].
  intros Hne. destruct (decide (v = "1")) as [->|H1]; [done|].
  rewrite lookup_insert_ne, lookup_insert_ne, lookup_empty by congruence.
  done.
Qed.

(** C4. The stage is [post] exactly when the hidden stage field, read from
    the POST data under the name [unused_name('stage')], is ["2"], and
    [preview] for every other value and when the field is absent.  The
    dispatcher then calls the handler whose name is the stage, an underscore
    and the lower-cased HTTP method.  A GET without stage field goes to
    [preview_get], which renders the form template over the context of a
    form built without [data] and [files]: unbound, unless
    [form_extra_params] itself supplies them, which the inherited one does
    not. *)
Theorem dispatch_by_stage_and_method `{HashPrimitives}
    request args kwargs w :
  let field :=
    QueryDict_get (POST request) (unused_name (form self) "stage") in
  let parse := call_hook (CallParseParams request args kwargs)
                         (parse_params self request args kwargs) in
  (stage_of field = "post" ↔ field = Some "2") ∧
  (field ≠ Some "2" → stage_of field = "preview") ∧
  (∀ handler,
     getattr self (stage_of field +:+ "_" +:+ lower (method request))
       = Some (AttrMethod handler) →
     __call__ self request args kwargs w = (parse ;;; handler request) w) ∧
  (field = Some "2" → lower (method request) = "post" →
     __call__ self request args kwargs w
       = (parse ;;; post_post self request) w) ∧
  (field ≠ Some "2" → lower (method request) = "post" →
     __call__ self request args kwargs w
       = (parse ;;; preview_post self request) w) ∧
  (field ≠ Some "2" → lower (method request) = "get" →
     __call__ self request args kwargs w
       = (parse ;;; preview_get self request) w) ∧
  (field = None → method request = "GET" →
     __call__ self request args kwargs w
       = (parse ;;; preview_get self request) w) ∧
  (∀ w0 response w',
     preview_get self request w0 = (Ok response, w') →
     ∃ f context extra st u st' u',
       form_extra_params self request st u = (Ok extra, st', u') ∧
       is_bound f
         = is_given (extra !! "data") || is_given (extra !! "files") ∧
       response
         = Rendered request (form_template self) context (self_state w') ∧
       CallGetContext request f ∈ trace w') ∧
  (∀ cls w0,
     let f := {| form_kwargs := <["auto_id" := VAtom (AStr AUTO_ID)]>
                                  (<["initial" := VDict ∅]> ∅) |} in
     is_bound f = false ∧
     preview_get (base cls) request w0
       = (Ok (Rendered request "formtools/form.html"
                (<["form" := CtxForm f]>
                   (<["stage_field" := CtxStr (unused_name cls "stage")]>
                      (<["state" := CtxStateRef]> ∅)))
                (self_state w0)),
          {| self_state := self_state w0; env := env w0;
             trace := trace w0 ++ [CallGetAutoId; CallGetInitial request;
                                   CallFormExtraParams request;
                                   CallGetContext request f] |})).
Proof.
  intros field parse.
  assert (∀ stage m handler,
            stage_of field = stage → lower (method request) = m →
            getattr self (stage +:+ "_" +:+ m) = Some (AttrMethod handler) →
            __call__ self request args kwargs w
              = (parse ;;; handler request) w) as Hdispatch.
  { intros stage m handler <- <- Hattr. unfold __call__.
    fold field. fold parse. by rewrite Hattr. }
  split_and!.
  - apply stage_of_post.
  - apply stage_of_preview.
  - intros handler Hattr. by eapply Hdispatch.
  - intros Hfield Hm. apply (Hdispatch "post" "post"); [|done..].
    by apply stage_of_post.
  - intros Hfield Hm. apply (Hdispatch "preview" "post"); [|done..].
    by apply stage_of_preview.
  - intros Hfield Hm. apply (Hdispatch "preview" "get"); [|done..].
    by apply stage_of_preview.
  - intros Hfield Hm. apply (Hdispatch "preview" "get"); [| |done].
    + apply stage_of_preview. by rewrite Hfield.
    + by rewrite Hm.
  - intros w0 response w' Hrun. unfold preview_get in Hrun.
    apply bind_inv_Ok in Hrun as (f & wf & Hf & Hrun).
    apply bind_inv_Ok in Hrun as (context & wc & Hctx & Hrun).
    apply preview_get_form_inv in Hf
      as (a & ini & extra & st1 & u1 & st2 & u2 & st3 & u3
          & _ & _ & Hx & Hcall & ->).
    apply call_hook_inv in Hctx as (st & u & _ & ->).
    unfold render, bind, get_state, ret in Hrun. injection Hrun as <- <-.
    exists f, context, extra, st2, u2, st3, u3. split_and!; [done| |done|].
    + unfold Form_call in Hcall. case_decide; [discriminate|].
      injection Hcall as <-. unfold is_bound. simpl.
      rewrite !lookup_union_r; [done|..];
        by rewrite !lookup_insert_ne, lookup_empty by done.
    + simpl. apply elem_of_app. right. apply list_elem_of_singleton.
      done.
  - intros cls w0 f. split; [done|].
    unfold preview_get, preview_get_form, base; simpl.
    unfold bind, call_hook, bind, log, run_hook, pure_hook, lift_result;
      simpl.
    unfold render, bind, get_state, ret, base_get_context, pure_hook; simpl.
    assert (Form_call [("auto_id", VAtom (AStr AUTO_ID));
                       ("initial", VDict ∅)] ∅ = Ok f) as ->
      by (vm_compute; reflexivity).
    by rewrite <- !app_assoc.
Qed.

(** C7, as amended.  [parse_params] is the first method the dispatcher calls.
    When it raises, the exception propagates and no handler runs.  When it
    returns, the dispatcher raises [Http404] if the controller has no
    attribute named after stage and method (so for the stage [post] with a
    GET), and otherwise returns or raises whatever the handler of that name
    does. *)
Theorem dispatch_parses_params_first request args kwargs w :
  let parse := call_hook (CallParseParams request args kwargs)
                         (parse_params self request args kwargs) in
  (∃ later, trace (__call__ self request args kwargs w).2
              = trace w ++ CallParseParams request args kwargs :: later) ∧
  (∀ e w1, parse w = (Raise e, w1) →
     __call__ self request args kwargs w = (Raise e, w1) ∧
     trace w1 = trace w ++ [CallParseParams request args kwargs]) ∧
  (∀ w1, parse w = (Ok tt, w1) →
     trace w1 = trace w ++ [CallParseParams request args kwargs] ∧
     (getattr self (handler_name self request) = None →
      __call__ self request args kwargs w = (Raise Http404, w1)) ∧
     (QueryDict_get (POST request) (unused_name (form self) "stage")
        = Some "2" →
      lower (method request) = "get" →
      __call__ self request args kwargs w = (Raise Http404, w1)) ∧
     (∀ handler,
        getattr self (handler_name self request) = Some (AttrMethod handler) →
        __call__ self request args kwargs w = handler request w1)).
Proof.
  intros parse.
  assert (∀ r w1, parse w = (r, w1) →
            trace w1 = trace w ++ [CallParseParams request args kwargs])
    as Htrace.
  { intros r w1 Hp. by apply call_hook_inv in Hp as (st & u & _ & ->). }
  split_and!.
  - unfold __call__. fold parse. unfold bind at 1.
    destruct (parse w) as [[[]|e] w1] eqn:Hp; simpl.
    + destruct (trace_grows_dispatch self request
                  (stage_of (QueryDict_get (POST request)
                               (unused_name (form self) "stage"))
                   +:+ "_" +:+ lower (method request)) w1) as [later Hl].
      exists later. by rewrite Hl, (Htrace _ _ eq_refl), <- app_assoc.
    + exists []. by rewrite (Htrace _ _ eq_refl).
  - intros e w1 Hp. split; [|by eapply Htrace].
    unfold __call__. fold parse. by erewrite bind_Raise.
  - intros w1 Hp. split_and!.
    + by eapply Htrace.
    + intros Hattr. unfold __call__. fold parse.
      erewrite bind_Ok by exact Hp. unfold handler_name in Hattr.
      by rewrite Hattr.
    + intros Hfield Hm. unfold __call__. fold parse.
      erewrite bind_Ok by exact Hp. by rewrite Hfield, Hm.
    + intros handler Hattr. unfold __call__. fold parse.
      erewrite bind_Ok by exact Hp. unfold handler_name in Hattr.
      by rewrite Hattr.
Qed.

(** C9, as amended.  [__init__] creates [self.state] empty and the
    dispatcher never resets it: only the methods of the subclass write it.
    Hence whatever these methods preserve of its contents, such as a key
    that [parse_params] stored during an earlier request, still holds when a
    later request on the same instance is done. *)
Theorem state_changes_only_through_hooks
    (P : Dict → Prop) request args kwargs w :
  hooks_keep self P →
  P (self_state w) →
  self_state (__init__ (env w)) = ∅ ∧
  P (self_state (__call__ self request args kwargs w).2).
Proof.
  intros Hkeep HP. split; [done|]. by apply state_kept_call.
Qed.

End Claims.

Lemma hash_mismatch_routes_to_failed_hash_witness :
  let request := Examples.confirm_request "forged" in
  let f := Examples.confirm_form request in
  post_post Examples.BasePreview request Examples.w0
    = call_failed_hash Examples.BasePreview request
        (Examples.after (Examples.form_calls request
                         ++ [CallSecurityHash request f])) ∧
  done_calls (trace (post_post Examples.BasePreview request Examples.w0).2)
    = done_calls (trace Examples.w0).
Proof.
  intros request f.
  apply (hash_mismatch_routes_to_failed_hash Examples.BasePreview
           request Examples.w0 f (Examples.after (Examples.form_calls request))
           Examples.good_hash).
  - vm_compute. reflexivity.
  - vm_compute. reflexivity.
  - vm_compute. reflexivity.
  - vm_compute. discriminate.
Defined.

Lemma hash_match_calls_done_witness :
  let request := Examples.confirm_request Examples.good_hash in
  let f := Examples.confirm_form request in
  let cleaned := cleaned_data Examples.ContactForm f in
  post_post Examples.ContactPreview request Examples.w0
    = call_hook (CallDone request cleaned)
        (done Examples.ContactPreview request cleaned)
        (Examples.after (Examples.form_calls request
                         ++ [CallSecurityHash request f])) ∧
  done_calls (trace (post_post Examples.ContactPreview request Examples.w0).2)
    = done_calls (trace Examples.w0) ++ [(request, cleaned)].
Proof.
  intros request f cleaned.
  apply (hash_match_calls_done Examples.ContactPreview
           request Examples.w0 f (Examples.after (Examples.form_calls request))
           Examples.good_hash).
  - vm_compute. reflexivity.
  - vm_compute. reflexivity.
  - vm_compute. reflexivity.
  - vm_compute. reflexivity.
Defined.

Lemma invalid_post_rerenders_form_witness :
  let request := Examples.invalid_request "2" in
  let f := Examples.confirm_form request in
  let w2 := Examples.after (Examples.form_calls request
                            ++ [CallGetContext request f]) in
  post_post Examples.BasePreview request Examples.w0
    = (Ok (Rendered request "formtools/form.html"
             (Examples.base_context f) ∅), w2) ∧
  trace w2 = [CallGetAutoId; CallFormExtraParams request;
              CallGetContext request f] ∧
  is_bound f = true ∧
  errors Examples.ContactForm f ≠ ∅ ∧
  (get_context Examples.BasePreview = base_get_context Examples.ContactForm →
   Examples.base_context f !! "form" = Some (CtxForm f)).
Proof.
  intros request f w2.
  apply (invalid_post_rerenders_form Examples.BasePreview
           (post_post Examples.BasePreview) request Examples.w0 f
           (Examples.after (Examples.form_calls request))
           (Examples.base_context f) w2).
  - right. split; [reflexivity|]. vm_compute. reflexivity.
  - vm_compute. reflexivity.
  - vm_compute. reflexivity.
Defined.

Lemma preview_hash_is_recomputed_hash_witness :
  let request := Examples.preview_request in
  let f := Examples.preview_form request in
  ∃ context,
    Rendered request "formtools/preview.html" (Examples.preview_context f) ∅
      = Rendered request "formtools/preview.html" context ∅ ∧
    context !! "hash_value"
      = Some (CtxStr (form_hmac (H:=Examples.toy_hash)
                        Examples.ContactForm f)) ∧
    context !! "hash_field"
      = Some (CtxStr (unused_name Examples.ContactForm "hash")) ∧
    (∀ request' f' w,
       cleaned_data Examples.ContactForm f'
         = cleaned_data Examples.ContactForm f →
       (call_hook (CallSecurityHash request' f')
                  (security_hash Examples.BasePreview request' f') w).1
         = Ok (form_hmac (H:=Examples.toy_hash) Examples.ContactForm f)) ∧
    form_hmac (H:=Examples.toy_hash) Examples.ContactForm f
      = salted_hmac (HashPrimitives:=Examples.toy_hash)
          (SECRET_KEY (HashPrimitives:=Examples.toy_hash))
          (serialize (HashPrimitives:=Examples.toy_hash)
             (cleaned_data Examples.ContactForm f)).
Proof.
  intros request f.
  apply (preview_hash_is_recomputed_hash Examples.BasePreview
           (H:=Examples.toy_hash) request Examples.w0 f
           (Examples.after (Examples.form_calls request))
           (Rendered request "formtools/preview.html"
              (Examples.preview_context f) ∅)
           (Examples.after (Examples.preview_calls request f))).
  - reflexivity.
  - vm_compute. reflexivity.
  - vm_compute. reflexivity.
  - vm_compute. reflexivity.
Defined.

Lemma confirm_binds_data_without_files_witness :
  let request :=
    with_FILES (Examples.confirm_request Examples.good_hash)
               Examples.upload in
  let f := Examples.confirm_form request in
  let fp := Examples.preview_form request in
  let cleaned := cleaned_data Examples.ContactForm f in
  (post_post_form Examples.ContactPreview (with_FILES request ∅)
     Examples.w0).1
    = (post_post_form Examples.ContactPreview request Examples.w0).1 ∧
  (done_calls (trace (post_post Examples.ContactPreview
                        (with_FILES request ∅) Examples.w0).2)).*2
    = (done_calls (trace (post_post Examples.ContactPreview request
                            Examples.w0).2)).*2 ∧
  form_kwargs f !! "data" = Some (VQueryDict (POST request)) ∧
  form_kwargs f !! "files" = None ∧
  done_calls (trace (post_post Examples.ContactPreview request
                       Examples.w0).2)
    = done_calls (trace Examples.w0) ++ [(request, cleaned)] ∧
  form_kwargs fp !! "files" = Some (VFiles Examples.upload) ∧
  CallGetContext request fp
    ∈ trace (preview_post Examples.ContactPreview request Examples.w0).2.
Proof.
  intros request f fp cleaned.
  destruct (confirm_binds_data_without_files Examples.ContactPreview
              request ∅ Examples.w0
              (λ st u, eq_refl) (λ f st u, eq_refl))
    as (Hform & Hdone & Hpost & Hpreview).
  destruct (Hpost f (Examples.after (Examples.form_calls request)))
    as (Hdata & _ & Hfiles & _ & Hcall & _).
  { vm_compute. reflexivity. }
  destruct (Hpreview fp (Examples.after (Examples.form_calls request)))
    as (_ & Hpfiles & Hctx & _).
  { vm_compute. reflexivity. }
  split_and!.
  - exact Hform.
  - exact Hdone.
  - exact Hdata.
  - apply Hfiles. intros st u extra st' u' [= <- _ _]. reflexivity.
  - apply (Hcall Examples.good_hash
             (Examples.after (Examples.form_calls request
                              ++ [CallSecurityHash request f]))).
    + vm_compute. reflexivity.
    + vm_compute. reflexivity.
    + vm_compute. reflexivity.
  - exact Hpfiles.
  - exact Hctx.
Defined.

Lemma state_changes_only_through_hooks_witness :
  let w1 := (__call__ Examples.ContactPreview Examples.get_request []
               Examples.user_32 Examples.w0).2 in
  self_state (__init__ (env w1)) = ∅ ∧
  Examples.has_user_id
    (self_state (__call__ Examples.ContactPreview Examples.preview_request
                   [] ∅ w1).2).
Proof.
  intros w1.
  apply (state_changes_only_through_hooks Examples.ContactPreview
           Examples.has_user_id Examples.preview_request [] ∅ w1).
  - split; simpl; intros; try apply keeps_pure_hook.
    + intros st u r st' u' [= _ <- _] Hst.
      apply lookup_union_is_Some. by right.
    + discriminate.
  - vm_compute. eexists. reflexivity.
Defined.

(** C7 as the spec words it fails: here [parse_params] returns and the
    handler [post_post] exists, yet the request ends in [Http404], raised by
    the [done] of the subclass. *)
Lemma Http404_raised_by_done_hook :
  ¬ Http404_exactly_when_unmatched Examples.GonePreview
      (Examples.confirm_request Examples.good_hash) [] ∅ Examples.w0.
Proof.
  unfold Http404_exactly_when_unmatched, raises_Http404. intros [Hif _].
  destruct Hif as [Hparse|Hnone].
  - vm_compute. reflexivity.
  - vm_compute in Hparse. discriminate.
  - vm_compute in Hnone. discriminate.
Qed.

(** C9 as the spec words it fails: after a request whose [parse_params]
    stored the captured [user_id], the state is not empty when the next
    request arrives. *)
Lemma state_survives_the_request :
  ¬ state_fresh_per_request Examples.ContactPreview Examples.get_request []
      Examples.user_32 tt.
Proof.
  unfold state_fresh_per_request. vm_compute. discriminate.
Qed.

(** * Further properties of the controller *)

(** ** [unused_name] *)

(** X1. A first-choice name comes back unchanged exactly when no field of
    the form claims it, and a name that [unused_name] returned is returned
    unchanged when asked for again. *)
Theorem unused_name_fixed_iff_unclaimed (cls : FormClass) (name : string) :
  (unused_name cls name = name ↔ base_fields cls !! name = None) ∧
  unused_name cls (unused_name cls name) = unused_name cls name.
Proof.
  assert (∀ n, base_fields cls !! n = None → unused_name cls n = n)
    as Hfree.
  { intros n Hn. unfold unused_name. simpl. by rewrite Hn. }
  destruct (unused_name_loop_total (base_fields cls) name)
    as (k & Hloop & Hk & _).
  assert (unused_name cls name = name +:+ underscores k) as Hres.
  { unfold unused_name. by rewrite Hloop. }
  split_and!.
  - split; [|apply Hfree]. intros Heq. by rewrite <- Heq, Hres.
  - apply Hfree. by rewrite Hres.
Qed.

(** X2. [unused_name] appends at most as many underscores as the form has
    fields, so the name grows by no more than that; a form without fields
    leaves every name as it is. *)
Theorem unused_name_underscores_bounded (cls : FormClass) (name : string) :
  (∃ k, k ≤ size (base_fields cls) ∧
        unused_name cls name = name +:+ underscores k) ∧
  String.length (unused_name cls name)
    ≤ String.length name + size (base_fields cls) ∧
  (base_fields cls = ∅ → unused_name cls name = name).
Proof.
  destruct (least_free_candidate (base_fields cls) name)
    as (k & Hle & Hfree & Hused).
  assert (unused_name cls name = name +:+ underscores k) as Hres.
  { unfold unused_name.
    rewrite (unused_name_loop_spec _ _ _ k); [done|lia|done..]. }
  split_and!.
  - by exists k.
  - rewrite Hres, length_string_app, length_underscores. lia.
  - intros Hempty. unfold unused_name. simpl. by rewrite Hempty, lookup_empty.
Qed.

(** X3. The names of the two hidden fields never coincide: whatever fields
    the form declares, [unused_name('stage')] and [unused_name('hash')]
    differ, so the stage input and the hash input of the preview page do not
    overwrite each other in the POST data. *)
Theorem hidden_field_names_distinct (cls : FormClass) :
  unused_name cls "stage" ≠ unused_name cls "hash".
Proof.
  destruct (unused_name_loop_total (base_fields cls) "stage")
    as (i & Hi & _ & _).
  destruct (unused_name_loop_total (base_fields cls) "hash")
    as (j & Hj & _ & _).
  unfold unused_name. rewrite Hi, Hj. simpl.
  rewrite !string_app_cons. discriminate.
Qed.

(** ** Dispatch *)

Lemma preview_handler_name m :
  "preview" +:+ "_" +:+ m
  = String "p" (String "r" (String "e" (String "v" (String "i"
      (String "e" (String "w" (String "_" m))))))).
Proof. reflexivity. Qed.

Lemma post_handler_name m :
  "post" +:+ "_" +:+ m
  = String "p" (String "o" (String "s" (String "t" (String "_" m)))).
Proof. reflexivity. Qed.

Section Dispatch.
Context {U : Type} (self : FormPreview U).
Implicit Types (w : World U) (request : HttpRequest) (f : Form).

Lemma getattr_preview m :
  getattr self ("preview" +:+ "_" +:+ m)
  = if decide (m = "get") then Some (AttrMethod (preview_get self))
    else if decide (m = "post") then Some (AttrMethod (preview_post self))
    else if decide (m = "template")
         then Some (AttrStr (preview_template self))
    else None.
Proof.
  unfold getattr. rewrite preview_handler_name.
  repeat case_decide; simplify_eq; done.
Qed.

Lemma getattr_post m :
  getattr self ("post" +:+ "_" +:+ m)
  = if decide (m = "post") then Some (AttrMethod (post_post self)) else None.
Proof.
  unfold getattr. rewrite post_handler_name.
  repeat case_decide; simplify_eq; done.
Qed.

(** X4. After [parse_params], the lookup by name in [__call__] amounts to
    this table.  With stage field ["2"]: POST goes to [post_post], every
    other method is not found.  With any other stage field or none: GET goes
    to [preview_get], POST to [preview_post], every other method is not
    found, except that a method spelled TEMPLATE finds the class attribute
    [preview_template], a string, and calling it raises [TypeError]. *)
Theorem dispatch_is_table request args kwargs w :
  __call__ self request args kwargs w
  = (call_hook (CallParseParams request args kwargs)
               (parse_params self request args kwargs) ;;;
     dispatch_table self request) w.
Proof.
  unfold __call__, dispatch_table, bind.
  destruct (call_hook _ _ w) as [[[]|e] w1]; [|done].
  case_decide as Hfield.
  - rewrite (proj2 (stage_of_post _) Hfield), getattr_post.
    by case_decide.
  - rewrite (stage_of_preview _ Hfield), getattr_preview.
    by repeat case_decide.
Qed.

End Dispatch.

(** ** Which methods a handler calls *)

Section Calls.
Context {U : Type} (self : FormPreview U).
Implicit Types (w : World U) (request : HttpRequest) (f : Form).
Implicit Types (allowed : Event → bool).

Lemma calls_only_ret allowed {A} (a : A) : calls_only (U:=U) allowed (ret a).
Proof. intros w. exists []. by rewrite app_nil_r. Qed.

Lemma calls_only_raise allowed {A} e :
  calls_only (U:=U) allowed (raise (A:=A) e).
Proof. intros w. exists []. by rewrite app_nil_r. Qed.

Lemma calls_only_lift_result allowed {A} (r : Result A) :
  calls_only (U:=U) allowed (lift_result r).
Proof. intros w. exists []. by rewrite app_nil_r. Qed.

Lemma calls_only_render allowed request template context :
  calls_only (U:=U) allowed (render request template context).
Proof. intros w. exists []. by rewrite app_nil_r. Qed.

Lemma calls_only_log allowed ev :
  allowed ev = true → calls_only (U:=U) allowed (log ev).
Proof. intros Hev w. exists [ev]. simpl. by rewrite Hev. Qed.

Lemma calls_only_call_hook allowed {A} ev (h : HookM U A) :
  allowed ev = true → calls_only allowed (call_hook ev h).
Proof.
  intros Hev w. destruct (call_hook ev h w) as [r w'] eqn:E.
  apply call_hook_inv in E as (st & u & _ & ->).
  exists [ev]. simpl. by rewrite Hev.
Qed.

Lemma calls_only_bind allowed {A B} (m : M U A) (k : A → M U B) :
  calls_only allowed m → (∀ a, calls_only allowed (k a)) →
  calls_only allowed (bind m k).
Proof.
  intros Hm Hk w. unfold bind. destruct (Hm w) as (l & Hl & Hall).
  destruct (m w) as [[a|e] w1]; simpl in *; [|by exists l].
  destruct (Hk a w1) as (l' & Hl' & Hall'). exists (l ++ l').
  rewrite Hl', Hl, app_assoc, forallb_app, Hall, Hall'. done.
Qed.

Lemma calls_only_weaken allowed allowed' {A} (m : M U A) :
  (∀ ev, allowed ev = true → allowed' ev = true) →
  calls_only allowed m → calls_only allowed' m.
Proof.
  intros Hsub Hm w. destruct (Hm w) as (l & Hl & Hall). exists l.
  split; [done|]. apply forallb_forall. intros ev Hev.
  apply Hsub. by eapply forallb_forall in Hall.
Qed.

Lemma calls_among_weaken names names' ev :
  names ⊆ names' → calls_among names ev = true →
  calls_among names' ev = true.
Proof.
  unfold calls_among. intros Hsub Hev%bool_decide_eq_true.
  apply bool_decide_eq_true. by apply Hsub.
Qed.

Local Ltac only_calls :=
  repeat first
    [ apply calls_only_call_hook; reflexivity
    | apply calls_only_lift_result
    | apply calls_only_render
    | apply calls_only_ret
    | apply calls_only_raise
    | apply calls_only_log; reflexivity
    | apply calls_only_bind; [|intros ?] ].

Lemma calls_only_preview_post request :
  calls_only (calls_among preview_post_methods) (preview_post self request).
Proof.
  unfold preview_post, preview_post_form.
  apply calls_only_bind; [only_calls|intros f].
  apply calls_only_bind; [only_calls|intros context].
  destruct (is_valid (form self) f); only_calls.
Qed.

(** X5. The methods each handler can call.  [preview_get] calls nothing but
    [get_auto_id], [get_initial], [form_extra_params] and [get_context];
    [preview_post] nothing but [get_auto_id], [form_extra_params],
    [get_context], [process_preview] and [security_hash]; [post_post] these
    and [failed_hash] and [done].  So the initial values of [get_initial]
    are consulted on GET only, and no handler calls [parse_params]. *)
Theorem handlers_call_only request :
  calls_only (calls_among preview_get_methods) (preview_get self request) ∧
  calls_only (calls_among preview_post_methods) (preview_post self request) ∧
  calls_only (calls_among post_post_methods) (post_post self request).
Proof.
  split_and!.
  - unfold preview_get, preview_get_form. only_calls.
  - apply calls_only_preview_post.
  - unfold post_post, post_post_form, _check_security_hash.
    apply calls_only_bind; [only_calls|intros f].
    destruct (is_valid (form self) f); [|only_calls].
    apply calls_only_bind; [only_calls|intros ok].
    destruct (negb ok); [|only_calls].
    unfold call_failed_hash. destruct (failed_hash self); [only_calls|].
    apply calls_only_bind; [only_calls|intros _].
    eapply calls_only_weaken; [|apply calls_only_preview_post].
    intros ev. apply calls_among_weaken. intros name Hname.
    by do 2 apply list_elem_of_further.
Qed.

Lemma no_done_preview_get request : no_done (preview_get self request).
Proof.
  unfold preview_get, preview_get_form.
  repeat first [ apply no_done_call_hook; reflexivity
               | apply no_done_lift_result
               | apply no_done_render
               | apply no_done_bind; [|intros ?] ].
Qed.

(** X6. [done] is reserved to confirm POSTs: a request whose stage field is
    not ["2"], or whose method is not POST, never leads to a call of
    [done], whatever the subclass overrides and whatever data it carries. *)
Theorem done_only_on_confirm_post request args kwargs w :
  QueryDict_get (POST request) (unused_name (form self) "stage") ≠ Some "2"
  ∨ lower (method request) ≠ "post" →
  done_calls (trace (__call__ self request args kwargs w).2)
  = done_calls (trace w).
Proof.
  intros Hnot. unfold __call__.
  revert w. apply no_done_bind; [by apply no_done_call_hook|intros _].
  destruct (decide (QueryDict_get (POST request)
                      (unused_name (form self) "stage") = Some "2"))
    as [Hfield|Hfield].
  - rewrite (proj2 (stage_of_post _) Hfield), getattr_post.
    destruct (decide (lower (method request) = "post")) as [Hm|Hm];
      [by destruct Hnot|apply no_done_raise].
  - rewrite (stage_of_preview _ Hfield), getattr_preview.
    destruct (decide (lower (method request) = "get"));
      [apply no_done_preview_get|].
    destruct (decide (lower (method request) = "post"));
      [apply no_done_preview_post|].
    destruct (decide (lower (method request) = "template"));
      apply no_done_raise.
Qed.

(** X7. [post_post] calls [done] only behind the hash check: if a run of
    [post_post] records a call to [done], then the re-bound form was valid,
    [security_hash] returned, and the token of the request equals the hash
    it returned. *)
Theorem done_requires_matching_hash request w :
  done_calls (trace (post_post self request w).2) ≠ done_calls (trace w) →
  ∃ f w1 expected w2,
    post_post_form self request w = (Ok f, w1) ∧
    is_valid (form self) f = true ∧
    call_hook (CallSecurityHash request f) (security_hash self request f) w1
      = (Ok expected, w2) ∧
    hash_token self request = expected.
Proof.
  intros Hdone.
  pose proof (no_done_post_post_form self request w) as Hform.
  destruct (post_post_form self request w) as [[f|e] w1] eqn:Hf.
  2: { destruct Hdone. unfold post_post. by erewrite bind_Raise. }
  simpl in Hform. unfold post_post in Hdone.
  rewrite (bind_Ok _ _ _ _ _ Hf) in Hdone.
  destruct (is_valid (form self) f) eqn:Hvalid.
  2: { destruct Hdone. rewrite <- Hform.
       assert (no_done
                 (context <- call_hook (CallGetContext request f)
                               (get_context self request f) ;;
                  render request (form_template self) context)) as Hq.
       { apply no_done_bind; [by apply no_done_call_hook|].
         intros. apply no_done_render. }
       apply Hq. }
  unfold _check_security_hash in Hdone.
  pose proof (no_done_call_hook (CallSecurityHash request f)
                (security_hash self request f) eq_refl w1) as Hhash.
  destruct (call_hook (CallSecurityHash request f)
              (security_hash self request f) w1) as [[expected|e] w2] eqn:Hh.
  2: { destruct Hdone.
       erewrite bind_Raise; [|by erewrite bind_Raise; [|exact Hh]].
       simpl in *. congruence. }
  simpl in Hhash.
  rewrite (bind_Ok _ _ _ (constant_time_compare
             (QueryDict_get_default (POST request)
                (unused_name (form self) "hash") "") expected) w2) in Hdone
    by (by erewrite bind_Ok; [|exact Hh]).
  unfold constant_time_compare in Hdone.
  exists f, w1, expected, w2. split_and!; [done..|].
  unfold hash_token. case_bool_decide as Heq; [done|].
  destruct Hdone. simpl. rewrite no_done_call_failed_hash. congruence.
Qed.

End Calls.

(** ** From preview to confirmation *)

Section Flow.
Context {U : Type} (self : FormPreview U).
Implicit Types (w : World U) (request : HttpRequest) (f : Form).

Lemma trace_call_hook {A} ev (h : HookM U A) w :
  trace (call_hook ev h w).2 = trace w ++ [ev].
Proof.
  destruct (call_hook ev h w) as [r w'] eqn:E.
  by apply call_hook_inv in E as (st & u & _ & ->).
Qed.

(** A valid preview POST, step by step. *)
Lemma preview_post_valid_inv request w f w1 response w' :
  preview_post_form self request w = (Ok f, w1) →
  is_valid (form self) f = true →
  preview_post self request w = (Ok response, w') →
  ∃ context0 wc context1 wp hash_value,
    call_hook (CallGetContext request f) (get_context self request f) w1
      = (Ok context0, wc) ∧
    call_hook (CallProcessPreview request f context0)
              (process_preview self request f context0) wc
      = (Ok context1, wp) ∧
    call_hook (CallSecurityHash request f) (security_hash self request f) wp
      = (Ok hash_value, w') ∧
    response
      = Rendered request (preview_template self)
          (<["hash_value" := CtxStr hash_value]>
             (<["hash_field" := CtxStr (unused_name (form self) "hash")]>
                context1))
          (self_state w').
Proof.
  intros Hf Hvalid Hrun. unfold preview_post in Hrun.
  rewrite (bind_Ok _ _ _ _ _ Hf) in Hrun.
  apply bind_inv_Ok in Hrun as (context0 & wc & Hc & Hrun).
  rewrite Hvalid in Hrun.
  apply bind_inv_Ok in Hrun as (context1 & wp & Hp & Hrun).
  apply bind_inv_Ok in Hrun as (hash_value & wh & Hh & Hrun).
  unfold render, bind, get_state, ret in Hrun. injection Hrun as <- <-.
  by exists context0, wc, context1, wp, hash_value.
Qed.

(** X8. In the page of a valid preview POST the entries [hash_field] and
    [hash_value] are the controller's: the name from [unused_name('hash')]
    and the value [security_hash] returned, also when [process_preview] put
    entries under these keys.  Every other entry is as [process_preview]
    left it, and [process_preview] worked on the context [get_context]
    returned. *)
Theorem preview_context_keeps_hash_entries request w f w1 response w' :
  preview_post_form self request w = (Ok f, w1) →
  is_valid (form self) f = true →
  preview_post self request w = (Ok response, w') →
  ∃ context0 context1 context hash_value st u st' u',
    (∃ st0 u0 st1 u1,
       get_context self request f st0 u0 = (Ok context0, st1, u1)) ∧
    process_preview self request f context0 st u = (Ok context1, st', u') ∧
    (∃ st2 u2,
       security_hash self request f st' u'
         = (Ok hash_value, st2, u2)) ∧
    response
      = Rendered request (preview_template self) context (self_state w') ∧
    context !! "hash_field"
      = Some (CtxStr (unused_name (form self) "hash")) ∧
    context !! "hash_value" = Some (CtxStr hash_value) ∧
    ∀ key, key ≠ "hash_field" → key ≠ "hash_value" →
           context !! key = context1 !! key.
Proof.
  intros Hf Hvalid Hrun.
  destruct (preview_post_valid_inv _ _ _ _ _ _ Hf Hvalid Hrun)
    as (context0 & wc & context1 & wp & hash_value & Hc & Hp & Hh & ->).
  apply call_hook_inv in Hc as (stc & uc & Hc & ->).
  apply call_hook_inv in Hp as (stp & up & Hp & ->).
  apply call_hook_inv in Hh as (sth & uh & Hh & ->). simpl in *.
  exists context0, context1. eexists. exists hash_value, stc, uc, stp, up.
  split_and!.
  - by exists (self_state w1), (env w1), stc, uc.
  - done.
  - by exists sth, uh.
  - reflexivity.
  - rewrite lookup_insert_ne by done. apply lookup_insert_eq.
  - apply lookup_insert_eq.
  - intros key H1 H2. by rewrite !lookup_insert_ne.
Qed.

(** X9. Preview, then confirm.  With the inherited [security_hash], suppose
    a valid preview POST rendered a page whose [hash_value] is [token].  A
    later POST at [post_post] that sends [token] in the hash field and whose
    re-bound form is valid with the same cleaned data reaches [done] with
    that cleaned data; the stage field, the hash field and dropped uploads
    may differ between the two requests. *)
Theorem preview_token_confirms `{HashPrimitives}
    request1 w f1 w1 request' template context state wa token
    request2 wb f2 w2 :
  security_hash self = (λ _ f, pure_hook (form_hmac (form self) f)) →
  preview_post_form self request1 w = (Ok f1, w1) →
  is_valid (form self) f1 = true →
  preview_post self request1 w
    = (Ok (Rendered request' template context state), wa) →
  context !! "hash_value" = Some (CtxStr token) →
  post_post_form self request2 wb = (Ok f2, w2) →
  is_valid (form self) f2 = true →
  cleaned_data (form self) f2 = cleaned_data (form self) f1 →
  hash_token self request2 = token →
  post_post self request2 wb
    = call_hook (CallDone request2 (cleaned_data (form self) f1))
        (done self request2 (cleaned_data (form self) f1))
        {| self_state := self_state w2; env := env w2;
           trace := trace w2 ++ [CallSecurityHash request2 f2] |} ∧
  done_calls (trace (post_post self request2 wb).2)
    = done_calls (trace wb) ++ [(request2, cleaned_data (form self) f1)].
Proof.
  intros Hdefault Hf1 Hvalid1 Hrun Htoken Hf2 Hvalid2 Hsame Hsent.
  destruct (preview_post_valid_inv _ _ _ _ _ _ Hf1 Hvalid1 Hrun)
    as (context0 & wc & context1 & wp & hash_value & _ & _ & Hh & Hresp).
  injection Hresp as _ _ -> _.
  rewrite lookup_insert_eq in Htoken. injection Htoken as <-.
  apply call_hook_inv in Hh as (sth & uh & Hh & _).
  rewrite Hdefault in Hh. unfold pure_hook in Hh. injection Hh as <- _ _.
  assert (call_hook (CallSecurityHash request2 f2)
            (security_hash self request2 f2) w2
          = (Ok (form_hmac (form self) f1),
             {| self_state := self_state w2; env := env w2;
                trace := trace w2 ++ [CallSecurityHash request2 f2] |}))
    as Hh2.
  { rewrite Hdefault. erewrite call_hook_intro by reflexivity.
    unfold form_hmac. by rewrite Hsame. }
  assert (post_post self request2 wb
          = call_hook (CallDone request2 (cleaned_data (form self) f1))
              (done self request2 (cleaned_data (form self) f1))
              {| self_state := self_state w2; env := env w2;
                 trace := trace w2 ++ [CallSecurityHash request2 f2] |})
    as Hpost.
  { unfold post_post. rewrite (bind_Ok _ _ _ _ _ Hf2), Hvalid2.
    unfold _check_security_hash.
    erewrite bind_Ok; [|by erewrite bind_Ok; [|exact Hh2]].
    unfold hash_token in Hsent. unfold constant_time_compare.
    rewrite bool_decide_eq_true_2 by done. simpl. by rewrite Hsame. }
  split; [done|]. rewrite Hpost, trace_call_hook. simpl.
  rewrite !done_calls_app. simpl. rewrite app_nil_r. f_equal.
  pose proof (no_done_post_post_form self request2 wb) as H0.
  by rewrite Hf2 in H0.
Qed.

(** X10. When [form_extra_params] returns a dictionary that repeats [data]
    or [auto_id], keywords the POST handlers pass themselves, both handlers
    end in [TypeError] as soon as the form is instantiated: nothing is
    validated and no further method is called. *)
Theorem repeated_keyword_raises_TypeError
    request w auto_id st1 u1 extra st2 u2 :
  get_auto_id self (self_state w) (env w) = (Ok auto_id, st1, u1) →
  form_extra_params self request st1 u1 = (Ok extra, st2, u2) →
  is_Some (extra !! "data") ∨ is_Some (extra !! "auto_id") →
  ∃ msg,
    let w' := {| self_state := st2; env := u2;
                 trace := trace w ++ [CallGetAutoId;
                                      CallFormExtraParams request] |} in
    preview_post self request w = (Raise (TypeError msg), w') ∧
    post_post self request w = (Raise (TypeError msg), w').
Proof.
  intros Ha Hx Hdup. eexists. simpl.
  assert (∀ rest,
            Form_call (("data", VQueryDict (POST request)) :: rest
                       ++ [("auto_id", VAtom (AStr auto_id))]) extra
            = Raise (TypeError "got multiple values for keyword argument"))
    as Hcall.
  { intros rest. unfold Form_call. rewrite decide_True; [done|].
    apply Exists_exists. destruct Hdup as [Hd|Hd].
    - exists ("data", VQueryDict (POST request)). split; [|done].
      apply list_elem_of_here.
    - exists ("auto_id", VAtom (AStr auto_id)). split; [|done].
      apply list_elem_of_further, elem_of_app. right.
      apply list_elem_of_here. }
  split.
  - unfold preview_post, preview_post_form.
    erewrite bind_Raise; [done|].
    erewrite bind_Ok by (by apply call_hook_intro).
    erewrite bind_Ok by (by apply call_hook_intro). simpl.
    pose proof (Hcall [("files", VFiles (FILES request))]) as Hc.
    simpl in Hc. unfold lift_result. rewrite Hc.
    by rewrite <- app_assoc.
  - unfold post_post, post_post_form.
    erewrite bind_Raise; [done|].
    erewrite bind_Ok by (by apply call_hook_intro).
    erewrite bind_Ok by (by apply call_hook_intro). simpl.
    pose proof (Hcall []) as Hc.
    simpl in Hc. unfold lift_result. rewrite Hc.
    by rewrite <- app_assoc.
Qed.

End Flow.

(** ** The controller without overrides *)

Section Inherited.
Context {U : Type} `{HashPrimitives} (cls : FormClass).
Implicit Types (w : World U) (request : HttpRequest).

Local Abbreviation self := (base (U:=U) cls).

Lemma inherited_post_post_form request w :
  post_post_form self request w
  = (Ok (inherited_post_form request),
     extend w [CallGetAutoId; CallFormExtraParams request]).
Proof.
  unfold post_post_form, base; simpl.
  unfold bind, call_hook, bind, log, run_hook, pure_hook, lift_result; simpl.
  assert (Form_call [("data", VQueryDict (POST request));
                     ("auto_id", VAtom (AStr AUTO_ID))] ∅
          = Ok (inherited_post_form request)) as ->.
  { unfold Form_call. rewrite decide_False.
    - reflexivity.
    - rewrite Exists_exists. intros (kv & _ & Hkv).
      rewrite lookup_empty in Hkv. by destruct Hkv. }
  unfold extend. by rewrite <- app_assoc.
Qed.

Lemma inherited_preview_post_form request w :
  preview_post_form self request w
  = (Ok (inherited_preview_form request),
     extend w [CallGetAutoId; CallFormExtraParams request]).
Proof.
  unfold preview_post_form, base; simpl.
  unfold bind, call_hook, bind, log, run_hook, pure_hook, lift_result; simpl.
  assert (Form_call [("data", VQueryDict (POST request));
                     ("files", VFiles (FILES request));
                     ("auto_id", VAtom (AStr AUTO_ID))] ∅
          = Ok (inherited_preview_form request)) as ->.
  { unfold Form_call. rewrite decide_False.
    - reflexivity.
    - rewrite Exists_exists. intros (kv & _ & Hkv).
      rewrite lookup_empty in Hkv. by destruct Hkv. }
  unfold extend. by rewrite <- app_assoc.
Qed.

Lemma inherited_hooks_keep (P : Dict → Prop) :
  hooks_keep self P.
Proof.
  split; simpl; intros; try apply keeps_pure_hook; try discriminate.
  apply keeps_raising_hook.
Qed.

(** X11. With the methods [FormPreview] itself defines ([parse_params] and
    [process_preview] empty, the others returning constants), a request
    leaves [self.state] exactly as it found it, whatever the stage, the
    method and the outcome. *)
Theorem inherited_hooks_leave_state request args kwargs w :
  self_state (__call__ self request args kwargs w).2
  = self_state w.
Proof.
  by apply (state_kept_call self (λ st, st = self_state w)
              (inherited_hooks_keep _)).
Qed.

(** X12. A controller that does not define [done] fails loudly, and only at
    the very end: on a confirm POST with valid data and the right token,
    [post_post] raises [NotImplementedError], naming the class, after the
    hash was checked. *)
Theorem inherited_done_raises request w :
  is_valid cls (inherited_post_form request) = true →
  hash_token self request
    = form_hmac cls (inherited_post_form request) →
  post_post self request w
  = (Raise (NotImplementedError
      "You must define a done() method on your FormPreview subclass."),
     extend w
       [CallGetAutoId; CallFormExtraParams request;
        CallSecurityHash request (inherited_post_form request);
        CallDone request (cleaned_data cls (inherited_post_form request))]).
Proof.
  intros Hvalid Htoken. unfold post_post.
  rewrite (bind_Ok _ _ _ _ _ (inherited_post_post_form request w)).
  change (form self) with cls. rewrite Hvalid.
  unfold _check_security_hash, hash_token in *.
  change (form self) with cls in Htoken. rewrite Htoken.
  erewrite bind_Ok.
  2: { erewrite bind_Ok by (by apply call_hook_intro). reflexivity. }
  unfold constant_time_compare. rewrite bool_decide_eq_true_2 by done.
  unfold bind, call_hook, bind, log, run_hook, ret, extend; simpl.
  by rewrite <- !app_assoc.
Qed.

(** X13. The inherited [failed_hash] starts the flow over.  On a confirm
    POST whose data is valid but whose token is wrong, the controller
    answers with the preview page again, built like a fresh preview (the
    form bound to data and files), and embeds the hash of that form: the
    token the client needs for its next confirmation. *)
Theorem forged_hash_shows_preview_again request w :
  let fc := inherited_post_form request in
  let fp := inherited_preview_form request in
  is_valid cls fc = true →
  hash_token self request ≠ form_hmac cls fc →
  is_valid cls fp = true →
  post_post self request w
  = (Ok (Rendered request "formtools/preview.html"
           (<["hash_value" := CtxStr (form_hmac cls fp)]>
              (<["hash_field" := CtxStr (unused_name cls "hash")]>
                 (inherited_context cls fp)))
           (self_state w)),
     extend w
       [CallGetAutoId; CallFormExtraParams request;
        CallSecurityHash request fc;
        CallFailedHash request;
        CallGetAutoId; CallFormExtraParams request;
        CallGetContext request fp;
        CallProcessPreview request fp (inherited_context cls fp);
        CallSecurityHash request fp]).
Proof.
  intros fc fp Hvalid Htoken Hpreview. unfold post_post.
  rewrite (bind_Ok _ _ _ _ _ (inherited_post_post_form request w)).
  change (form self) with cls. fold fc. rewrite Hvalid.
  unfold _check_security_hash, hash_token in *.
  change (form self) with cls in Htoken.
  erewrite bind_Ok.
  2: { erewrite bind_Ok by (by apply call_hook_intro). reflexivity. }
  unfold constant_time_compare. rewrite bool_decide_eq_false_2 by done.
  simpl. unfold call_failed_hash. simpl.
  erewrite bind_Ok by reflexivity.
  unfold preview_post.
  erewrite bind_Ok by apply inherited_preview_post_form.
  change (form self) with cls. fold fp. rewrite Hpreview.
  unfold bind, call_hook, bind, log, run_hook, ret, render, get_state,
    extend; simpl.
  unfold bind, log, ret; simpl. by rewrite <- !app_assoc.
Qed.

End Inherited.

(** ** The further properties at work *)

Lemma done_only_on_confirm_post_witness :
  done_calls (trace (__call__ Examples.ContactPreview Examples.preview_request
                       [] ∅ Examples.w0).2)
  = done_calls (trace Examples.w0).
Proof.
  apply (done_only_on_confirm_post Examples.ContactPreview
           Examples.preview_request [] ∅ Examples.w0).
  left. vm_compute. discriminate.
Defined.

Lemma done_requires_matching_hash_witness :
  let request := Examples.confirm_request Examples.good_hash in
  ∃ f w1 expected w2,
    post_post_form Examples.ContactPreview request Examples.w0 = (Ok f, w1) ∧
    is_valid Examples.ContactForm f = true ∧
    call_hook (CallSecurityHash request f)
              (security_hash Examples.ContactPreview request f) w1
      = (Ok expected, w2) ∧
    hash_token Examples.ContactPreview request = expected.
Proof.
  intros request.
  apply (done_requires_matching_hash Examples.ContactPreview request
           Examples.w0).
  vm_compute. discriminate.
Defined.

Lemma preview_context_keeps_hash_entries_witness :
  let request := Examples.preview_request in
  let f := Examples.preview_form request in
  ∃ context0 context1 context hash_value st u st' u',
    (∃ st0 u0 st1 u1,
       get_context Examples.BasePreview request f st0 u0
         = (Ok context0, st1, u1)) ∧
    process_preview Examples.BasePreview request f context0 st u
      = (Ok context1, st', u') ∧
    (∃ st2 u2,
       security_hash Examples.BasePreview request f st' u'
         = (Ok hash_value, st2, u2)) ∧
    Rendered request "formtools/preview.html" (Examples.preview_context f) ∅
      = Rendered request (preview_template Examples.BasePreview) context
          (self_state (Examples.after (Examples.preview_calls request f))) ∧
    context !! "hash_field"
      = Some (CtxStr (unused_name Examples.ContactForm "hash")) ∧
    context !! "hash_value" = Some (CtxStr hash_value) ∧
    ∀ key, key ≠ "hash_field" → key ≠ "hash_value" →
           context !! key = context1 !! key.
Proof.
  intros request f.
  apply (preview_context_keeps_hash_entries Examples.BasePreview request
           Examples.w0 f (Examples.after (Examples.form_calls request))).
  - vm_compute. reflexivity.
  - vm_compute. reflexivity.
  - vm_compute. reflexivity.
Defined.

Lemma preview_token_confirms_witness :
  let request1 := Examples.preview_request in
  let request2 := Examples.confirm_request Examples.good_hash in
  let f1 := Examples.preview_form request1 in
  let f2 := Examples.confirm_form request2 in
  let cleaned := cleaned_data Examples.ContactForm f1 in
  post_post Examples.ContactPreview request2 Examples.w0
    = call_hook (CallDone request2 cleaned)
        (done Examples.ContactPreview request2 cleaned)
        (Examples.after (Examples.form_calls request2
                         ++ [CallSecurityHash request2 f2])) ∧
  done_calls (trace (post_post Examples.ContactPreview request2
                       Examples.w0).2)
    = done_calls (trace Examples.w0) ++ [(request2, cleaned)].
Proof.
  intros request1 request2 f1 f2 cleaned.
  apply (preview_token_confirms Examples.ContactPreview (H:=Examples.toy_hash)
           request1 Examples.w0 f1
           (Examples.after (Examples.form_calls request1))
           request1 "formtools/preview.html" (Examples.preview_context f1) ∅
           (Examples.after (Examples.preview_calls request1 f1))
           Examples.good_hash
           request2 Examples.w0 f2
           (Examples.after (Examples.form_calls request2))).
  - reflexivity.
  - vm_compute. reflexivity.
  - vm_compute. reflexivity.
  - vm_compute. reflexivity.
  - vm_compute. reflexivity.
  - vm_compute. reflexivity.
  - vm_compute. reflexivity.
  - vm_compute. reflexivity.
  - vm_compute. reflexivity.
Defined.

Lemma repeated_keyword_raises_TypeError_witness :
  let request := Examples.preview_request in
  ∃ msg,
    let w' := Examples.after (Examples.form_calls request) in
    preview_post Examples.ClashPreview request Examples.w0
      = (Raise (TypeError msg), w') ∧
    post_post Examples.ClashPreview request Examples.w0
      = (Raise (TypeError msg), w').
Proof.
  intros request.
  apply (repeated_keyword_raises_TypeError Examples.ClashPreview request
           Examples.w0 AUTO_ID ∅ tt
           (<["auto_id" := VAtom (AStr "id_%s")]> ∅) ∅ tt).
  - reflexivity.
  - reflexivity.
  - right. vm_compute. eexists. reflexivity.
Defined.

Lemma inherited_done_raises_witness :
  let request := Examples.confirm_request Examples.good_hash in
  post_post Examples.BasePreview request Examples.w0
  = (Raise (NotImplementedError
      "You must define a done() method on your FormPreview subclass."),
     extend Examples.w0
       [CallGetAutoId; CallFormExtraParams request;
        CallSecurityHash request (inherited_post_form request);
        CallDone request
          (cleaned_data Examples.ContactForm (inherited_post_form request))]).
Proof.
  intros request.
  apply (inherited_done_raises (U:=unit) (H:=Examples.toy_hash)
           Examples.ContactForm request Examples.w0).
  - vm_compute. reflexivity.
  - vm_compute. reflexivity.
Defined.

Lemma forged_hash_shows_preview_again_witness :
  let request := Examples.confirm_request "forged" in
  let fc := inherited_post_form request in
  let fp := inherited_preview_form request in
  post_post Examples.BasePreview request Examples.w0
  = (Ok (Rendered request "formtools/preview.html"
           (<["hash_value" :=
                CtxStr (form_hmac (H:=Examples.toy_hash)
                          Examples.ContactForm fp)]>
              (<["hash_field" := CtxStr (unused_name Examples.ContactForm
                                           "hash")]>
                 (inherited_context Examples.ContactForm fp)))
           (self_state Examples.w0)),
     extend Examples.w0
       [CallGetAutoId; CallFormExtraParams request;
        CallSecurityHash request fc;
        CallFailedHash request;
        CallGetAutoId; CallFormExtraParams request;
        CallGetContext request fp;
        CallProcessPreview request fp
          (inherited_context Examples.ContactForm fp);
        CallSecurityHash request fp]).
Proof.
  intros request fc fp.
  apply (forged_hash_shows_preview_again (U:=unit) (H:=Examples.toy_hash)
           Examples.ContactForm request Examples.w0).
  - vm_compute. reflexivity.
  - vm_compute. discriminate.
  - vm_compute. reflexivity.
Defined.

(** * The code at work *)

Example unused_name_skips_declared_field :
  unused_name Examples.ContactForm "stage" = "stage_" ∧
  unused_name Examples.ContactForm "hash" = "hash".
Proof. split; vm_compute; reflexivity. Qed.

Example get_renders_unbound_form :
  (__call__ Examples.BasePreview Examples.get_request [] ∅ Examples.w0).1
  = Ok (Rendered Examples.get_request "formtools/form.html"
          (Examples.base_context
             {| form_kwargs := <["auto_id" := VAtom (AStr AUTO_ID)]>
                                 (<["initial" := VDict ∅]> ∅) |}) ∅).
Proof. vm_compute. reflexivity. Qed.

Example valid_preview_embeds_hash :
  (__call__ Examples.BasePreview Examples.preview_request [] ∅ Examples.w0).1
  = Ok (Rendered Examples.preview_request "formtools/preview.html"
          (Examples.preview_context
             (Examples.preview_form Examples.preview_request)) ∅).
Proof. vm_compute. reflexivity. Qed.

Example confirm_with_good_hash_is_done :
  (__call__ Examples.ContactPreview
     (Examples.confirm_request Examples.good_hash) [] ∅ Examples.w0).1
  = Ok (HttpResponseRedirect "/thanks/").
Proof. vm_compute. reflexivity. Qed.

Example confirm_with_forged_hash_previews_again :
  (__call__ Examples.ContactPreview
     (Examples.confirm_request "forged") [] ∅ Examples.w0).1
  = Ok (Rendered (Examples.confirm_request "forged") "formtools/preview.html"
          (Examples.preview_context
             (Examples.preview_form (Examples.confirm_request "forged"))) ∅).
Proof. vm_compute. reflexivity. Qed.

Example done_must_be_defined :
  (__call__ Examples.BasePreview
     (Examples.confirm_request Examples.good_hash) [] ∅ Examples.w0).1
  = Raise (NotImplementedError
             "You must define a done() method on your FormPreview subclass.").
Proof. vm_compute. reflexivity. Qed.

(** The state one request leaves behind shows up in the page of the next. *)
Example state_leaks_into_next_response :
  let w1 := (__call__ Examples.ContactPreview Examples.get_request []
               Examples.user_32 Examples.w0).2 in
  ∃ context,
    (__call__ Examples.ContactPreview Examples.get_request [] ∅ w1).1
    = Ok (Rendered Examples.get_request "formtools/form.html" context
            Examples.user_32).
Proof. eexists. vm_compute. reflexivity. Qed.

(** [getattr] also finds the class attribute [preview_template], which is
    a string: a request whose method is TEMPLATE ends in [TypeError]. *)
Example method_named_after_attribute :
  (__call__ Examples.BasePreview Examples.odd_method_request [] ∅
     Examples.w0).1
  = Raise (TypeError "'str' object is not callable").
Proof. vm_compute. reflexivity. Qed.
